(** * simple_network_sim: the trial orchestrator of sampleUseOfModel.py

    A shallow embedding of [runSimulation], of the part of [main] that seeds
    the trials and of the argument parser built by [build_args], together with
    the properties of the orchestration and averaging engine.

    - Totals are IEEE binary64 numbers, as in a pandas [float64] column: they
      are Rocq's primitive floats, so [+] and [/] round as the code's do.
    - The network is a mutable Python object whose [initialState] attribute
      refers to a second mutable object; both live in a heap of references,
      and [copy.deepcopy] allocates fresh copies of both.
    - [ss.exposeRegions] and [ss.basicSimulationInternalAgeStructure] belong to
      the [network_of_populations] module: they are parameters of the model,
      state transformers that may raise.
    - Every call the orchestrator makes is recorded in a trace. *)

From Stdlib Require Import ZArith Floats Uint63 Ascii String.
From stdpp Require Import gmap strings list.

Local Open Scope Z_scope.

(** ** Exceptions and outcomes *)

Inductive exn : Type :=
| IndexError                       (* list index out of range *)
| AttributeError                   (* attribute access on the wrong object *)
| ModelError (msg : string).       (* raised inside network_of_populations *)

Inductive outcome (A : Type) : Type :=
| Returned (a : A)
| Raised (e : exn).
Arguments Returned {A} a.
Arguments Raised {A} e.

#[global] Instance exn_eq_dec : EqDecision exn.
Proof. solve_decision. Defined.

(** ** Time series frames (the pandas side) *)

Module Frame.

(** The composite key (time, node, age, state). *)
Definition key : Type := Z * string * string * string.

(** One row of the frame returned by the model: the columns
    time, node, age, state, total. *)
Record TimeSeriesRow : Type := mkRow {
  time : Z;
  node : string;
  age : string;
  state : string;
  total : float
}.

Definition DataFrame : Type := list TimeSeriesRow.

(** A frame after [set_index(["time", "node", "age", "state"])]: the four
    columns form the row labels and [total] is the only column left. *)
Definition Indexed : Type := list (key * float).

Definition row_key (r : TimeSeriesRow) : key := (time r, node r, age r, state r).

Definition set_index (f : DataFrame) : Indexed :=
  map (fun r => (row_key r, total r)) f.

Definition reset_index (a : Indexed) : DataFrame :=
  map (fun '((t, n, g, s), v) => mkRow t n g s v) a.

Definition index (a : Indexed) : list key := map fst a.
Definition keys (f : DataFrame) : list key := map row_key f.

(** Label lookup, [series.get(k)]: the first row labelled [k]. *)
Fixpoint series_get (k : key) (a : Indexed) : option float :=
  match a with
  | [] => None
  | (k', v) :: a' => if decide (k' = k) then Some v else series_get k a'
  end.

Definition frame_get (k : key) (f : DataFrame) : option float :=
  series_get k (set_index f).

(** [self.total + other.total]. Two series with identical indexes are added
    position by position. Otherwise the operands are aligned on their labels
    and a label missing on one side contributes NaN; only the labels of [self]
    are listed here, since the in-place update that follows reindexes the sum
    like [self] and so drops every label that [self] lacks. The alignment is
    modelled for indexes without repeated labels, which is what the model
    returns (one row per time, node, age and state). *)
Definition series_add (self other : Indexed) : list float :=
  if decide (index self = index other)
  then zip_with PrimFloat.add (map snd self) (map snd other)
  else map (fun '(k, v) => PrimFloat.add v (default nan (series_get k other))) self.

(** [aggregated.total += indexed.total]: the [total] column of [aggregated]
    is replaced by the sum, the index stays. *)
Definition iadd_total (aggregated indexed : Indexed) : Indexed :=
  zip (index aggregated) (series_add aggregated indexed).

(** The conversion of a Python int to binary64 that [/=] performs on its
    right operand (exact below 2^53; the model covers |n| < 2^63). *)
Definition float_of_int (n : Z) : float :=
  if n <? 0 then PrimFloat.opp (PrimFloat.of_uint63 (Uint63.of_Z (- n)))
  else PrimFloat.of_uint63 (Uint63.of_Z n).

(** [averaged.total /= trials]. *)
Definition idiv_total (averaged : DataFrame) (trials : Z) : DataFrame :=
  map (fun r => mkRow (time r) (node r) (age r) (state r)
                      (PrimFloat.div (total r) (float_of_int trials))) averaged.


(** The accumulator after all trials: the first indexed frame, then every
    later one added in place. *)
Definition accumulate (first : Indexed) (rest : list Indexed) : Indexed :=
  fold_left iadd_total rest first.

(** The frames have the same set of keys. *)
Definition same_key_space (frames : list DataFrame) : Prop :=
  forall f g, f ∈ frames -> g ∈ frames -> forall k, k ∈ keys f <-> k ∈ keys g.

(** What a frame contributes to the sum for the label [k]: its total for
    [k], NaN when it has no row for [k]. *)
Definition contribution (k : key) (f : DataFrame) : float :=
  default nan (frame_get k f).

End Frame.

(** ** The heap of Python objects, the trace and the effect monad *)

Definition loc : Type := positive.

Section Orchestrator.

(** The types of [network_of_populations]: everything a network holds besides
    its initial state, the initial state itself, and one set of initial
    infections. *)
Context {Structure State InfectionSet : Type}.

(** A [NetworkOfPopulation] object refers to its [initialState] object. *)
Inductive obj : Type :=
| ONetwork (body : Structure) (initialState : loc)
| OState (s : State).

(** The calls [runSimulation] makes, in the order it makes them. The calls
    into the model record what the model was given. *)
Inductive event : Type :=
| LogInfo (fmt : string) (args : list Z)
| Deepcopy (src dst : loc)
| ExposeRegions (infections : InfectionSet) (target : loc) (before : State)
| Simulation (net : loc) (body : Structure) (st : State) (max_time : Z)
| SetIndex
| IaddTotal
| ResetIndex
| IdivTotal (n : Z).

Record world : Type := World { heap : gmap loc obj; trace : list event }.

(** State and exceptions: what was done before an exception stays done. *)
Definition M (A : Type) : Type := world -> outcome A * world.

Definition ret {A} (a : A) : M A := fun w => (Returned a, w).

Definition raise {A} (e : exn) : M A := fun w => (Raised e, w).

Definition bind {A B} (m : M A) (k : A -> M B) : M B := fun w =>
  match m w with
  | (Returned a, w') => k a w'
  | (Raised e, w') => (Raised e, w')
  end.

#[local] Instance M_ret : MRet M := @ret.
#[local] Instance M_bind : MBind M := fun A B k m => bind m k.

Definition emit (e : event) : M unit := fun w =>
  (Returned tt, World (heap w) (trace w ++ [e])).

(** [logger.info(fmt, *args)] *)
Definition logger_info (fmt : string) (args : list Z) : M unit :=
  emit (LogInfo fmt args).

(** [l[i]] on a Python list: a negative index counts from the end. *)
Definition getitem {A} (l : list A) (i : Z) : M A :=
  let j := if i <? 0 then i + Z.of_nat (length l) else i in
  match (if 0 <=? j then l !! Z.to_nat j else None) with
  | Some a => ret a
  | None => raise IndexError
  end.

(** [range(n)] *)
Definition range (n : Z) : list Z := seqZ 0 n.

(** [for x in l: s = body(x, s)] *)
Fixpoint for_each {A S} (l : list A) (body : A -> S -> M S) (s : S) : M S :=
  match l with
  | [] => ret s
  | x :: l' => s' ← body x s; for_each l' body s'
  end.

(** [copy.deepcopy(network)]: a fresh network object that refers to a fresh
    copy of the initial state. *)
Definition deepcopy (network : loc) : M loc := fun w =>
  match heap w !! network with
  | Some (ONetwork body sl) =>
      match heap w !! sl with
      | Some (OState st) =>
          let sl' := fresh (dom (heap w)) in
          let h1 := <[sl' := OState st]> (heap w) in
          let l' := fresh (dom h1) in
          (Returned l',
           World (<[l' := ONetwork body sl']> h1) (trace w ++ [Deepcopy network l']))
      | _ => (Raised AttributeError, w)
      end
  | _ => (Raised AttributeError, w)
  end.

(** [network.initialState] *)
Definition get_initialState (network : loc) : M loc := fun w =>
  match heap w !! network with
  | Some (ONetwork _ sl) => (Returned sl, w)
  | _ => (Raised AttributeError, w)
  end.

(** *** The collaborators *)

(** [ss.exposeRegions(infections, states)] updates [states] in place and
    returns nothing: given the infections and the content of the state object
    it yields the new content, and the exception if it raises. *)
Variable exposeRegions : InfectionSet -> State -> State * option exn.

(** [ss.basicSimulationInternalAgeStructure(network, max_time)] reads the
    network it is given, may update it and its initial state, and returns the
    time series or raises. *)
Variable basicSimulationInternalAgeStructure :
  Structure -> State -> Z -> (Structure * State) * outcome Frame.DataFrame.

Definition call_exposeRegions (infections : InfectionSet) (states : loc) : M unit := fun w =>
  match heap w !! states with
  | Some (OState st) =>
      let '(st', r) := exposeRegions infections st in
      let w' := World (<[states := OState st']> (heap w))
                      (trace w ++ [ExposeRegions infections states st]) in
      match r with
      | None => (Returned tt, w')
      | Some e => (Raised e, w')
      end
  | _ => (Raised AttributeError, w)
  end.

Definition call_basicSimulationInternalAgeStructure (network : loc) (max_time : Z)
  : M Frame.DataFrame := fun w =>
  match heap w !! network with
  | Some (ONetwork body sl) =>
      match heap w !! sl with
      | Some (OState st) =>
          let '((body', st'), r) := basicSimulationInternalAgeStructure body st max_time in
          (r, World (<[network := ONetwork body' sl]> (<[sl := OState st']> (heap w)))
                    (trace w ++ [Simulation network body st max_time]))
      | _ => (Raised AttributeError, w)
      end
  | _ => (Raised AttributeError, w)
  end.

(** *** runSimulation *)

(** Lines 79-82: the branch [trials <= 1]. *)
Definition single_trial_path (network : loc) (max_time : Z)
    (initialInfections : list InfectionSet) : M Frame.DataFrame :=
  logger_info "Running simulation (1/1)" [];;
  disposableNetwork ← deepcopy network;
  infections ← getitem initialInfections 0;
  states ← get_initialState disposableNetwork;
  call_exposeRegions infections states;;
  call_basicSimulationInternalAgeStructure disposableNetwork max_time.

(** Lines 87-98: the body of the loop, for trial [i]. *)
Definition trial_body (network : loc) (max_time trials : Z)
    (initialInfections : list InfectionSet)
    (i : Z) (aggregated : option Frame.Indexed) : M (option Frame.Indexed) :=
  logger_info "Running simulation (%s/%s)" [i + 1; trials];;
  disposableNetwork ← deepcopy network;
  infections ← getitem initialInfections i;
  states ← get_initialState disposableNetwork;
  call_exposeRegions infections states;;
  frame ← call_basicSimulationInternalAgeStructure disposableNetwork max_time;
  emit SetIndex;;
  let indexed := Frame.set_index frame in
  match aggregated with
  | None => mret (Some indexed)
  | Some aggregated => emit IaddTotal;; mret (Some (Frame.iadd_total aggregated indexed))
  end.

(** Lines 84-103: the branch [trials > 1]. *)
Definition multi_trial_path (network : loc) (max_time trials : Z)
    (initialInfections : list InfectionSet) : M Frame.DataFrame :=
  aggregated ← for_each (range trials)
                 (trial_body network max_time trials initialInfections) None;
  match aggregated with
  | None => raise AttributeError     (* None.reset_index() *)
  | Some aggregated =>
      emit ResetIndex;;
      let averaged := Frame.reset_index aggregated in
      emit (IdivTotal trials);;
      mret (Frame.idiv_total averaged trials)
  end.

Definition runSimulation (network : loc) (max_time trials : Z)
    (initialInfections : list InfectionSet) : M Frame.DataFrame :=
  if trials <=? 1
  then single_trial_path network max_time initialInfections
  else multi_trial_path network max_time trials initialInfections.

(** What one trial yields when it runs on a network whose content is
    [body] and [st0]: the frame of the model run on the exposed state. *)
Definition trial_frame (body : Structure) (st0 : State) (max_time : Z)
    (infections : InfectionSet) : outcome Frame.DataFrame :=
  match exposeRegions infections st0 with
  | (st1, None) => snd (basicSimulationInternalAgeStructure body st1 max_time)
  | (_, Some e) => Raised e
  end.

(** *** Vocabulary of the statements *)

(** The heap holds at [network] a network of content [body] whose initial
    state object holds [st0]. *)
Definition network_at (h : gmap loc obj) (network : loc)
    (body : Structure) (st0 : State) : Prop :=
  exists sl, h !! network = Some (ONetwork body sl) /\ h !! sl = Some (OState st0).

Definition is_deepcopy (e : event) : bool :=
  match e with Deepcopy _ _ => true | _ => false end.

Definition is_exposure (e : event) : bool :=
  match e with ExposeRegions _ _ _ => true | _ => false end.

Definition is_simulation (e : event) : bool :=
  match e with Simulation _ _ _ _ => true | _ => false end.

(** The steps of the averaging: re-keying, adding, flattening, dividing. *)
Definition is_averaging (e : event) : bool :=
  match e with SetIndex | IaddTotal | ResetIndex | IdivTotal _ => true | _ => false end.

(** How many events of a kind a trace holds. *)
Definition calls (p : event -> bool) (evs : list event) : nat :=
  length (List.filter p evs).

(** The InfectionSets a trace shows being applied, in order. *)
Definition exposures (evs : list event) : list InfectionSet :=
  omap (fun e => match e with ExposeRegions inf _ _ => Some inf | _ => None end) evs.

(** The clones a trace shows being made. *)
Definition clones (evs : list event) : list loc :=
  omap (fun e => match e with Deepcopy _ dst => Some dst | _ => None end) evs.

(** What the calls of one trial are when the trial clones [network] into
    [d], whose initial state is the fresh object [sl'], and reads the
    infections [oinf] (none: the index is out of range). *)
Definition trial_events (network d sl' : loc) (body : Structure) (st0 : State)
    (max_time : Z) (oinf : option InfectionSet) : list event :=
  Deepcopy network d ::
  match oinf with
  | None => []
  | Some inf =>
      ExposeRegions inf sl' st0 ::
      match exposeRegions inf st0 with
      | (st1, None) => [Simulation d body st1 max_time]
      | (_, Some _) => []
      end
  end.

Definition trial_outcome (body : Structure) (st0 : State) (max_time : Z)
    (oinf : option InfectionSet) : outcome Frame.DataFrame :=
  match oinf with
  | None => Raised IndexError
  | Some inf => trial_frame body st0 max_time inf
  end.

(** The accumulator after one more trial (lines 95-98). *)
Definition merge (aggregated : option Frame.Indexed) (frame : Frame.DataFrame)
  : option Frame.Indexed :=
  match aggregated with
  | None => Some (Frame.set_index frame)
  | Some a => Some (Frame.iadd_total a (Frame.set_index frame))
  end.

(** What isolation means for one event of a run that started in heap [h0]
    with a template of content [body] and [st0]: a clone is a new object,
    the model writes to new objects only, an exposure finds the state of the
    template, and the model is run on the template's content, exposed. *)
Definition isolated (h0 : gmap loc obj) (body : Structure) (st0 : State)
    (e : event) : Prop :=
  match e with
  | Deepcopy _ dst => dst ∉ dom h0
  | ExposeRegions _ target before => (target ∉ dom h0) /\ before = st0
  | Simulation d b st _ =>
      (d ∉ dom h0) /\ b = body /\ exists inf, st = fst (exposeRegions inf st0)
  | _ => True
  end.

(** The trials of indexes [is_], each run on a network of content [body]
    and [st0] with its own entry of [infs], return the frames [frames]. *)
Definition trial_results (body : Structure) (st0 : State) (max_time : Z)
    (infs : list InfectionSet) (is_ : list Z) (frames : list Frame.DataFrame) : Prop :=
  Forall2 (fun i f => trial_outcome body st0 max_time (infs !! Z.to_nat i) = Returned f)
    is_ frames.

(** The five calls every trial starts with, on either path. *)
Definition trial_core (network : loc) (max_time : Z)
    (initialInfections : list InfectionSet) (i : Z) : M Frame.DataFrame :=
  disposableNetwork ← deepcopy network;
  infections ← getitem initialInfections i;
  states ← get_initialState disposableNetwork;
  call_exposeRegions infections states;;
  call_basicSimulationInternalAgeStructure disposableNetwork max_time.

End Orchestrator.

(** ** The command line (build_args, and the seeding in main) *)

Module CLI.

(** The values an attribute of the parsed namespace can hold. *)
#[warnings="-register-all"]
Inductive value : Type :=
| VNone
| VBool (b : bool)
| VInt (n : Z)
| VStr (s : string)
| VPath (p : string)
| VList (l : list value).

(** [type=int], [type=Path] *)
Inductive conv : Type := TInt | TPath.

Inductive action : Type := Store | StoreTrue | Help.

(** [nargs] absent: one value; [nargs="+"]: one value or more. *)
Inductive nargs : Type := One | OneOrMore.

(** One [add_argument] call. [dest] is what argparse derives from the first
    long option string when the call names none. *)
Record argument : Type := Argument {
  option_strings : list string;
  dest : string;
  default_value : value;
  type : option conv;
  act : action;
  arity : nargs
}.

Abbreviation namespace := (gmap string value).

(** The outcome of [parse_args]: the namespace, or the exit of the process
    (status 0 after the help text, 2 after a usage error). [Unmodelled]
    marks the command lines this model of argparse does not follow: a value
    attached to a short option ([-lFILE], [-qc]) and the separator [--]. *)
Inductive result : Type :=
| Parsed (ns : namespace)
| Exit (code : Z)
| Unmodelled.

(** The help option every parser gets. *)
Definition help_argument : argument :=
  Argument ["-h"; "--help"] "help" VNone None Help One.

(** Lines 186-220: the options of the main parser. *)
Definition main_arguments : list argument :=
  [ help_argument;
    Argument ["--use-movement-multipliers"] "use_movement_multipliers"
      (VBool false) None StoreTrue One;
    Argument ["--time"] "time" (VInt 200) (Some TInt) Store One;
    Argument ["-l"; "--logfile"] "logfile" VNone (Some TPath) Store One;
    Argument ["-q"; "--quiet"] "quiet" (VBool false) None StoreTrue One;
    Argument ["--debug"] "debug" (VBool false) None StoreTrue One;
    Argument ["-c"; "--data-pipeline-config"] "data_pipeline_config"
      (VStr "config.yaml") None Store One ].

(** Lines 225-242: the options of the [random] command. [--regions] has a
    default and a help text, and no [type]. *)
Definition random_arguments : list argument :=
  [ help_argument;
    Argument ["--regions"] "regions" (VInt 1) None Store One;
    Argument ["--age-groups"] "age_groups" (VList [VStr "[17,70)"]) None Store OneOrMore;
    Argument ["--trials"] "trials" (VInt 100) (Some TInt) Store One;
    Argument ["--infected"] "infected" (VInt 100) (Some TInt) Store One ].

(** Lines 245-252: the options of the [seeded] command. *)
Definition seeded_arguments : list argument :=
  [ help_argument;
    Argument ["--trials"] "trials" (VInt 1) (Some TInt) Store One ].

(** Line 222: the commands, stored under [cmd]. *)
Definition subparsers : list (string * list argument) :=
  [ ("random", random_arguments); ("seeded", seeded_arguments) ].

(** *** argparse *)

Definition is_digit (c : ascii) : bool :=
  (48 <=? nat_of_ascii c)%nat && (nat_of_ascii c <=? 57)%nat.

Fixpoint all_digits (s : string) : bool :=
  match s with
  | EmptyString => true
  | String c s' => is_digit c && all_digits s'
  end.

Fixpoint split_at (sep : ascii) (s : string) : string * option string :=
  match s with
  | EmptyString => (EmptyString, None)
  | String c s' =>
      if decide (c = sep) then (EmptyString, Some s')
      else let '(a, b) := split_at sep s' in (String c a, b)
  end.

Fixpoint contains (c : ascii) (s : string) : bool :=
  match s with
  | EmptyString => false
  | String c' s' => bool_decide (c' = c) || contains c s'
  end.

(** argparse's pattern for a negative number: [-\d+] or [-\d*\.\d+]. *)
Definition negative_number (tok : string) : bool :=
  match tok with
  | String "-" s =>
      match split_at "." s with
      | (a, None) => negb (bool_decide (a = EmptyString)) && all_digits a
      | (a, Some b) => all_digits a && negb (bool_decide (b = EmptyString)) && all_digits b
      end
  | _ => false
  end.

Definition declares (o : string) (a : argument) : bool :=
  bool_decide (o ∈ option_strings a).

Definition find_exact (decls : list argument) (o : string) : option argument :=
  List.find (declares o) decls.

(** The options one of whose long option strings starts with [o]. *)
Definition abbreviated (decls : list argument) (o : string) : list (argument * string) :=
  a ← decls; s ← option_strings a;
  if String.prefix o s then [(a, s)] else [].

Inductive token : Type :=
| Value                                              (* may be an argument *)
| Option_ (a : argument) (explicit : option string)  (* a declared option *)
| Unknown                                            (* an undeclared option *)
| Ambiguous                                          (* several abbreviations *)
| Outside.                                           (* not modelled *)

(** How the parser that declares [decls] reads one word of the command
    line. *)
Definition classify (decls : list argument) (tok : string) : token :=
  match tok with
  | String "-" rest =>
      match find_exact decls tok with
      | Some a => Option_ a None
      | None =>
          match rest with
          | EmptyString => Value                      (* "-" *)
          | String "-" EmptyString => Outside         (* "--" *)
          | String "-" _ =>
              let '(name, explicit) := split_at "=" tok in
              match find_exact decls name with
              | Some a => Option_ a explicit
              | None =>
                  match abbreviated decls name with
                  | [(a, _)] => Option_ a explicit
                  | _ :: _ :: _ => Ambiguous
                  | [] => if contains " " tok then Value else Unknown
                  end
              end
          | String c _ =>
              match find_exact decls (String "-" (String c EmptyString)) with
              | Some _ => Outside                     (* -lFILE, -qc *)
              | None =>
                  if negative_number tok || contains " " tok then Value else Unknown
              end
          end
      end
  | _ => Value
  end.

Section Parse.

(** Python's [int(s)] on a string: the number, or nothing for a
    ValueError. *)
Variable int : string -> option Z.

Definition convert (a : argument) (v : string) : option value :=
  match type a with
  | None => Some (VStr v)
  | Some TInt => VInt <$> int v
  | Some TPath => Some (VPath v)
  end.

(** What the parser is doing between two words. *)
Inductive mode : Type :=
| Idle
| WantOne (a : argument)
| WantMore (a : argument) (got : list value).

Record state : Type := State { ns : namespace; extras : bool }.

Definition setattr (st : state) (d : string) (v : value) : state :=
  State (<[d := v]> (ns st)) (extras st).

(** The defaults of a parser's options, set before any word is read. *)
Definition defaults (decls : list argument) (n : namespace) : namespace :=
  foldr (fun a n => match act a with Help => n | _ => <[dest a := default_value a]> n end)
        n decls.

Section Parser.

Variable decls : list argument.
(** What a word that is neither an option nor the argument of one means to
    this parser: the name of a command, which takes the words that follow
    it, or, for a parser without commands, nothing. *)
Variable command : option (string -> list string -> state -> result).
(** What the parser does when no word is left. *)
Variable at_end : state -> result.

Fixpoint parse_words (words : list string) (m : mode) (st : state) : result :=
  match words with
  | [] =>
      match m with
      | Idle => at_end st
      | WantOne _ => Exit 2                            (* expected one argument *)
      | WantMore _ [] => Exit 2                        (* expected at least one *)
      | WantMore a got => at_end (setattr st (dest a) (VList got))
      end
  | word :: words' =>
      let fresh_word (st : state) : result :=
        match classify decls word with
        | Value =>
            match command with
            | Some run => run word words' st
            | None => parse_words words' Idle (State (ns st) true)   (* unrecognized *)
            end
        | Option_ a explicit =>
            match act a, explicit with
            | Help, None => Exit 0
            | Help, Some _ => Exit 2
            | StoreTrue, None => parse_words words' Idle (setattr st (dest a) (VBool true))
            | StoreTrue, Some _ => Exit 2
            | Store, None =>
                match arity a with
                | One => parse_words words' (WantOne a) st
                | OneOrMore => parse_words words' (WantMore a []) st
                end
            | Store, Some v =>
                match convert a v with
                | None => Exit 2                       (* invalid value *)
                | Some x =>
                    parse_words words' Idle
                      (setattr st (dest a)
                         match arity a with One => x | OneOrMore => VList [x] end)
                end
            end
        | Unknown => parse_words words' Idle (State (ns st) true)   (* unrecognized *)
        | Ambiguous => Exit 2
        | Outside => Unmodelled
        end in
      match m with
      | Idle => fresh_word st
      | WantOne a =>
          match classify decls word with
          | Value =>
              match convert a word with
              | None => Exit 2
              | Some x => parse_words words' Idle (setattr st (dest a) x)
              end
          | Outside => Unmodelled
          | _ => Exit 2
          end
      | WantMore a got =>
          match classify decls word with
          | Value =>
              match convert a word with
              | None => Exit 2
              | Some x => parse_words words' (WantMore a (got ++ [x])) st
              end
          | Outside => Unmodelled
          | _ =>
              match got with
              | [] => Exit 2
              | _ => fresh_word (setattr st (dest a) (VList got))
              end
          end
      end
  end.

End Parser.

(** The parser of a command: unrecognized words make [parse_args] fail once
    all words are read. *)
Definition parse_command (decls : list argument) (words : list string)
    (st : state) : result :=
  parse_words decls None
    (fun st => if extras st then Exit 2 else Parsed (ns st))
    words Idle st.

(** Line 222: the first word that is no option is the command (the
    subparsers are required); the words after it are the command's. *)
Definition dispatch (cmd : string) (words : list string) (st : state) : result :=
  match List.find (fun p => bool_decide (fst p = cmd)) subparsers with
  | None => Exit 2                                     (* invalid choice *)
  | Some (_, decls) =>
      parse_command decls words
        (State (defaults decls (<["cmd" := VStr cmd]> (ns st))) (extras st))
  end.

(** [build_args(argv)] *)
Definition build_args (argv : list string) : result :=
  parse_words main_arguments (Some dispatch) (fun _ => Exit 2)
    argv Idle (State (defaults main_arguments ∅) false).

(** *** The seeding in main (lines 37-44) *)




(** *** Vocabulary of the statements *)




End Parse.

(** A reading of decimal numbers, to run the parser on examples: an
    optional sign and digits. *)
Fixpoint digits_value (s : string) (acc : Z) : Z :=
  match s with
  | EmptyString => acc
  | String c s' => digits_value s' (10 * acc + Z.of_nat (nat_of_ascii c - 48))
  end.

Definition decimal (s : string) : option Z :=
  match s with
  | String "-" d => if negb (bool_decide (d = "")) && all_digits d
                    then Some (- digits_value d 0) else None
  | String "+" d => if negb (bool_decide (d = "")) && all_digits d
                    then Some (digits_value d 0) else None
  | d => if negb (bool_decide (d = "")) && all_digits d
         then Some (digits_value d 0) else None
  end.

End CLI.

(** ** A small model to run the orchestrator on *)

Module Scenario.

(** One node and one age group with the compartments S and I, and no
    dynamics: the state is the pair of the two totals, an InfectionSet is
    the number of people to move from S to I, and the time series repeats
    the exposed state at every time step. With [sparse] set the model leaves
    out the rows whose total is zero. *)
Definition exposeRegions (infected : float) (st : float * float)
  : (float * float) * option exn :=
  ((PrimFloat.sub (fst st) infected, PrimFloat.add (snd st) infected), None).

Definition rows (sparse : bool) (st : float * float) (t : Z) : Frame.DataFrame :=
  List.filter (fun r => negb (sparse && PrimFloat.eqb (Frame.total r) 0))
    [Frame.mkRow t "n" "a" "S" (fst st); Frame.mkRow t "n" "a" "I" (snd st)].

Definition basicSimulationInternalAgeStructure (sparse : bool)
    (st : float * float) (max_time : Z)
  : (bool * (float * float)) * outcome Frame.DataFrame :=
  ((sparse, st), Returned (flat_map (rows sparse st) (seqZ 0 (max_time + 1)))).

(** The template at reference 1, with 1000 people in S, its initial state
    at reference 2. *)
Definition template (sparse : bool) : gmap loc (@obj bool (float * float)) :=
  <[1%positive := ONetwork sparse 2%positive]>
    (<[2%positive := OState (1000%float, 0%float)]> ∅).

Definition start (sparse : bool) : @world bool (float * float) float :=
  World (template sparse) [].

Definition run (sparse : bool) (max_time trials : Z) (infs : list float) :=
  runSimulation exposeRegions basicSimulationInternalAgeStructure
    1%positive max_time trials infs (start sparse).

Definition kS : Frame.key := (0, "n", "a", "S").
Definition kI : Frame.key := (0, "n", "a", "I").

(** The row sets of three trials that infect 10, 20 and 30 people. *)
Definition frames3 : list Frame.DataFrame :=
  [ [Frame.mkRow 0 "n" "a" "S" 990; Frame.mkRow 0 "n" "a" "I" 10];
    [Frame.mkRow 0 "n" "a" "S" 980; Frame.mkRow 0 "n" "a" "I" 20];
    [Frame.mkRow 0 "n" "a" "S" 970; Frame.mkRow 0 "n" "a" "I" 30] ]%float.

(** The row sets of two trials of the sparse model: the first has no row
    for I, the second has one. *)
Definition frames_mismatched : list Frame.DataFrame :=
  [ [Frame.mkRow 0 "n" "a" "S" 1000];
    [Frame.mkRow 0 "n" "a" "S" 990; Frame.mkRow 0 "n" "a" "I" 10] ]%float.

End Scenario.

(** ** More vocabulary for traces *)

Section Steps.

Context {Structure State InfectionSet : Type}.

Local Abbreviation event := (@event Structure State InfectionSet).

Definition is_set_index (e : event) : bool :=
  match e with SetIndex => true | _ => false end.

Definition is_iadd (e : event) : bool :=
  match e with IaddTotal => true | _ => false end.

(** The two steps that end the averaging (lines 100-101). *)
Definition is_final (e : event) : bool :=
  match e with ResetIndex | IdivTotal _ => true | _ => false end.

(** The messages a trace shows being logged, in order. *)
Definition log_lines (evs : list event) : list (string * list Z) :=
  omap (fun e => match e with LogInfo fmt args => Some (fmt, args) | _ => None end) evs.

(** The progress messages of the trials of indexes [is_] (line 87). *)
Definition progress (trials : Z) (is_ : list Z) : list (string * list Z) :=
  map (fun i => ("Running simulation (%s/%s)", [i + 1; trials])) is_.

End Steps.

(** ** Logging configuration (setup_logger) *)

Module Logger.

Inductive level : Type := DEBUG | INFO | WARNING.

(** One entry of [logconf["handlers"]]: the class, the level, the formatter,
    and the stream of a stream handler or the file name and the encoding of a
    file handler. *)
Record handler : Type := Handler {
  h_class : string;
  h_level : level;
  h_formatter : string;
  h_target : string;
  h_encoding : option string
}.

(** The dictionary handed to [logging.config.dictConfig]; every dictionary
    in it keeps its keys in insertion order. *)
Record logconf : Type := LogConf {
  version : Z;
  disable_existing_loggers : bool;
  formatters : list (string * string);
  handlers : list (string * handler);
  loggers : list (string * (list string * level))
}.

(** What setup_logger reads of its argument: [args.logfile] (None or a
    path), [args.quiet] and [args.debug]. *)
Record logger_args (Path : Type) : Type := LoggerArgs {
  logfile : option Path;
  quiet : bool;
  debug : bool
}.
Arguments LoggerArgs {Path} logfile quiet debug.
Arguments logfile {Path} _.
Arguments quiet {Path} _.
Arguments debug {Path} _.

(** How the call ends: the configuration was handed to dictConfig, the
    process was asked to exit, or an exception went through. *)
Inductive ending : Type :=
| Configured (conf : logconf)
| SystemExit (code : Z)
| Raise (e : exn).

Definition set_level (name : string) (l : level)
    (hs : list (string * handler)) : list (string * handler) :=
  map (fun '(n, h) =>
         if decide (n = name)
         then (n, Handler (h_class h) l (h_formatter h) (h_target h) (h_encoding h))
         else (n, h)) hs.

(** [name in logconf["handlers"]] *)
Definition has_handler (name : string) (hs : list (string * handler)) : bool :=
  bool_decide (name ∈ map fst hs).

(** [logconf["handlers"][name]["level"]], when the handler is there. *)
Definition handler_level (name : string) (conf : logconf) : option level :=
  h_level <$> (snd <$> List.find (fun p => bool_decide (fst p = name)) (handlers conf)).

(** The handlers every logger of the configuration names. *)
Definition named_handlers (conf : logconf) : list string :=
  p ← loggers conf; fst (snd p).

Section SetupLogger.

(** Paths and the file system belong to pathlib and the operating system:
    [parent p] is [p.parents[0]], nothing when [p] has no parent;
    [mkdir p fs] is [p.mkdir(exist_ok=True)], nothing when it raises OSError;
    [str p] is [str(p)]; [cwd] is [Path.cwd()], nothing when it raises
    OSError; [package] is [__package__]. *)
Context {Path FS : Type} `{EqDecision Path}.
Variable parent : Path -> option Path.
Variable cwd : option Path.
Variable mkdir : Path -> FS -> option FS.
Variable str : Path -> string.
Variable package : string.

(** Lines 123-140. *)
Definition initial_logconf : logconf :=
  LogConf 1 false
    [("standard", "[%(asctime)s] [%(name)s] [%(levelname)s] %(message)s")]
    [("stderr", Handler "logging.StreamHandler" INFO "standard" "ext://sys.stderr" None)]
    [(package, (["stderr"], DEBUG))].

(** Lines 154-161: the file handler is added and the package logger names
    it. *)
Definition add_logfile (p : Path) (conf : logconf) : logconf :=
  LogConf (version conf) (disable_existing_loggers conf) (formatters conf)
    (handlers conf ++
       [("logfile", Handler "logging.FileHandler" INFO "standard" (str p) (Some "utf8"))])
    (map (fun '(n, (hs, l)) =>
            if decide (n = package) then (n, (hs ++ ["logfile"], l)) else (n, (hs, l)))
         (loggers conf)).

Definition with_handlers (hs : list (string * handler)) (conf : logconf) : logconf :=
  LogConf (version conf) (disable_existing_loggers conf) (formatters conf) hs
    (loggers conf).

(** Lines 163-169. *)
Definition set_levels (args : option (logger_args Path)) (conf : logconf) : logconf :=
  match args with
  | Some a =>
      if quiet a then with_handlers (set_level "stderr" WARNING (handlers conf)) conf
      else if debug a then
        let hs := set_level "stderr" DEBUG (handlers conf) in
        with_handlers
          (if has_handler "logfile" hs then set_level "logfile" DEBUG hs else hs) conf
      else conf
  | None => conf
  end.

(** [setup_logger(args)], from a file system: how it ends, the file system
    it leaves, and the errors it logged (the message and its argument). *)
Definition setup_logger (args : option (logger_args Path)) (fs : FS)
  : ending * FS * list (string * Path) :=
  let logconf := initial_logconf in
  match args with
  | Some (LoggerArgs (Some file) _ _) =>
      match parent file with
      | None => (Raise IndexError, fs, [])             (* args.logfile.parents[0] *)
      | Some logdir =>
          match (c ← cwd; if decide (logdir = c) then Some fs else mkdir logdir fs) with
          | None =>
              (SystemExit 1, fs, [("Could not create %s for logging", logdir)])
          | Some fs' =>
              (Configured (set_levels args (add_logfile file logconf)), fs', [])
          end
      end
  | _ => (Configured (set_levels args logconf), fs, [])
  end.

End SetupLogger.

End Logger.

(** ** The program (main) *)

Module Main.
Import CLI.

Inductive command : Type := Random | Seeded.

(** The attributes main and setup_logger read of the parsed namespace, with
    the types main relies on. [regions], [age_groups] and [infected] are
    read by the [random] command only. *)
Record arguments : Type := Arguments_ {
  cmd : command;
  time : Z;
  trials : Z;
  use_movement_multipliers : bool;
  data_pipeline_config : value;
  logfile : option string;
  quiet : bool;
  debug : bool;
  regions : value;
  age_groups : value;
  infected : value
}.

Definition read_command (args : namespace) : option command :=
  match args !! "cmd" with
  | Some (VStr "random") => Some Random
  | Some (VStr "seeded") => Some Seeded
  | _ => None
  end.

Definition read_int (args : namespace) (name : string) : option Z :=
  match args !! name with Some (VInt n) => Some n | _ => None end.

Definition read_bool (args : namespace) (name : string) : option bool :=
  match args !! name with Some (VBool b) => Some b | _ => None end.

Definition read_path (args : namespace) (name : string) : option (option string) :=
  match args !! name with
  | Some VNone => Some None
  | Some (VPath p) => Some (Some p)
  | _ => None
  end.

(** The namespace as main reads it; nothing when an attribute main reads is
    missing or is not of the type main uses it at. *)
Definition read_args (args : namespace) : option arguments :=
  c ← read_command args;
  t ← read_int args "time";
  n ← read_int args "trials";
  m ← read_bool args "use_movement_multipliers";
  config ← args !! "data_pipeline_config";
  l ← read_path args "logfile";
  q ← read_bool args "quiet";
  d ← read_bool args "debug";
  match c with
  | Seeded => Some (Arguments_ c t n m config l q d VNone VNone VNone)
  | Random =>
      r ← args !! "regions";
      g ← args !! "age_groups";
      i ← args !! "infected";
      Some (Arguments_ c t n m config l q d r g i)
  end.

(** The tables load_network reads for the arguments [a], in order. *)
Definition table_names (a : arguments) : list string :=
  ["human/compartment-transition"; "human/population"; "human/commutes";
   "human/mixing-matrix"; "human/infectious-compartments";
   "human/infection-probability"]
  ++ (if use_movement_multipliers a then ["human/movement-multipliers"] else []).

(** What happens to the data store. *)
Inductive access : Type :=
| Opened (config : value)
| Read (name : string)
| Written (name : string) (table : Frame.DataFrame)
| Closed.

(** The tables written, in order. *)
Definition writes (l : list access) : list (string * Frame.DataFrame) :=
  omap (fun a => match a with Written n t => Some (n, t) | _ => None end) l.

(** The tables read, in order. *)
Definition reads (l : list access) : list string :=
  omap (fun a => match a with Read n => Some n | _ => None end) l.

(** How the program ends: normally, by an exit with a status, by an
    exception, or on a command line the model of argparse leaves out. *)
Inductive ending : Type :=
| Done
| Exited (code : Z)
| Failed (e : exn)
| Outside.

Section Main.

Context {Structure State InfectionSet Table G Path FS : Type} `{EqDecision Path}.

(** The model, as runSimulation calls it. *)
Variable exposeRegions : InfectionSet -> State -> State * option exn.
Variable basicSimulationInternalAgeStructure :
  Structure -> State -> Z -> (Structure * State) * outcome Frame.DataFrame.

(** Python's [int], pathlib, the file system and the package name, as
    build_args and setup_logger use them; [Path_ s] is [Path(s)]. *)
Variable int : string -> option Z.
Variable Path_ : string -> Path.
Variable parent : Path -> option Path.
Variable cwd : option Path.
Variable mkdir : Path -> FS -> option FS.
Variable str : Path -> string.
Variable package : string.

(** [data.Datastore(config)]: the exception, when opening it raises;
    [store.read_table(name)]; [store.write_table(name, table)]: the
    exception, when it raises. *)
Variable Datastore : value -> option exn.
Variable tables : string -> outcome Table.
Variable write_table : string -> Frame.DataFrame -> option exn.

(** [ss.createNetworkOfPopulation] on the six tables and the optional
    movement multipliers: the content of the network it builds. *)
Variable createNetworkOfPopulation :
  list Table -> option Table -> outcome (Structure * State).

(** [loaders.readInitialInfections(table)] *)
Variable readInitialInfections : Table -> outcome InfectionSet.

(** [ss.randomlyInfectRegions(network, regions, age_groups, infected)]: it
    reads the network and draws from the random generator, whose state [G]
    it advances. *)
Variable randomlyInfectRegions :
  G -> Structure -> State -> value -> value -> value -> outcome InfectionSet * G.

Local Abbreviation world := (@world Structure State InfectionSet).

(** What a run of the program works on: the Python objects and the trace of
    the orchestrator, the data store, the random generator, the file system
    and the logging configuration in force. *)
Record session : Type := Session {
  objects : world;
  accesses : list access;
  rng : G;
  files : FS;
  logging : option Logger.logconf;
  errors : list (string * Path)
}.

Definition B (A : Type) : Type := session -> outcome A * session.

#[local] Instance B_ret : MRet B := fun A a s => (Returned a, s).
#[local] Instance B_bind : MBind B := fun A C k m s =>
  match m s with
  | (Returned a, s') => k a s'
  | (Raised e, s') => (Raised e, s')
  end.

Definition with_objects (w : world) (s : session) : session :=
  Session w (accesses s) (rng s) (files s) (logging s) (errors s).

Definition with_access (a : access) (s : session) : session :=
  Session (objects s) (accesses s ++ [a]) (rng s) (files s) (logging s) (errors s).

(** A step of the orchestrator's monad, inside the program. *)
Definition lift {A} (m : M A) : B A := fun s =>
  let '(r, w) := m (objects s) in (r, with_objects w s).

(** A call of a collaborator that only computes. *)
Definition call {A} (r : outcome A) : B A := fun s => (r, s).

Definition read_table (name : string) : B Table := fun s =>
  (tables name, with_access (Read name) s).

Definition store_write_table (name : string) (table : Frame.DataFrame) : B unit := fun s =>
  (match write_table name table with None => Returned tt | Some e => Raised e end,
   with_access (Written name table) s).

(** [for x in l: s = body(x, s)] *)
Fixpoint B_for_each {A S} (l : list A) (body : A -> S -> B S) (s : S) : B S :=
  match l with
  | [] => mret s
  | x :: l' => s' ← body x s; B_for_each l' body s'
  end.

(** The network object createNetworkOfPopulation returns: a new object
    that refers to a new initial state. *)
Definition new_network (content : Structure * State) : B loc := fun s =>
  let h := heap (objects s) in
  let sl := fresh (dom h) in
  let h1 := <[sl := OState (snd content)]> h in
  let l := fresh (dom h1) in
  (Returned l,
   with_objects (World (<[l := ONetwork (fst content) sl]> h1) (trace (objects s))) s).

(** Lines 27-35. *)
Definition load_network (a : arguments) : B loc :=
  t1 ← read_table "human/compartment-transition";
  t2 ← read_table "human/population";
  t3 ← read_table "human/commutes";
  t4 ← read_table "human/mixing-matrix";
  t5 ← read_table "human/infectious-compartments";
  t6 ← read_table "human/infection-probability";
  t7 ← (if use_movement_multipliers a
        then t ← read_table "human/movement-multipliers"; mret (Some t)
        else mret None);
  content ← call (createNetworkOfPopulation [t1; t2; t3; t4; t5; t6] t7);
  new_network content.

(** Line 44: one call of randomlyInfectRegions. *)
Definition draw (a : arguments) (network : loc) : B InfectionSet := fun s =>
  match heap (objects s) !! network with
  | Some (ONetwork body sl) =>
      match heap (objects s) !! sl with
      | Some (OState st) =>
          let '(r, g) := randomlyInfectRegions (rng s) body st
                           (regions a) (age_groups a) (infected a) in
          (r, Session (objects s) (accesses s) g (files s) (logging s) (errors s))
      | _ => (Raised AttributeError, s)
      end
  | _ => (Raised AttributeError, s)
  end.

(** Lines 37-44. *)
Definition seed (a : arguments) (network : loc) : B (list InfectionSet) :=
  let initialInfections := [] in
  match cmd a with
  | Seeded =>
      table ← read_table "human/initial-infections";
      infections ← call (readInitialInfections table);
      mret (initialInfections ++ [infections])
  | Random =>
      B_for_each (range (trials a))
        (fun _ initialInfections =>
           infections ← draw a network; mret (initialInfections ++ [infections]))
        initialInfections
  end.

(** Lines 46-55. *)
Definition simulate_and_write (a : arguments) (network : loc)
    (initialInfections : list InfectionSet) : B unit :=
  results ← lift (runSimulation exposeRegions basicSimulationInternalAgeStructure
                    network (time a) (trials a) initialInfections);
  lift (logger_info "Writing output" []);;
  store_write_table "output/simple_network_sim/outbreak-timeseries" results;;
  lift (logger_info "Took %.2fs to run the simulation." []);;
  lift (logger_info
          "Use `python -m simple_network_sim.network_of_populations.visualisation -h` to find out how to take a peak what you just ran. You will need use the access-<hash>.yaml file that was created by this run."
          []).

(** Lines 27-55: what main does with the open store. *)
Definition main_body (a : arguments) : B unit :=
  network ← load_network a;
  initialInfections ← seed a network;
  simulate_and_write a network initialInfections.

(** Line 26: [with data.Datastore(config) as store: body]; the store is
    closed however the body ends. *)
Definition with_datastore (config : value) (body : B unit) : B unit := fun s =>
  match Datastore config with
  | Some e => (Raised e, s)
  | None =>
      let '(r, s') := body (with_access (Opened config) s) in
      (r, with_access Closed s')
  end.

(** [main(argv)] *)
Definition main (argv : list string) (s : session) : ending * session :=
  match build_args int argv with
  | Exit code => (Exited code, s)
  | Unmodelled => (Outside, s)
  | Parsed args =>
      match read_args args with
      | None => (Failed AttributeError, s)
      | Some a =>
          match Logger.setup_logger parent cwd mkdir str package
                  (Some (Logger.LoggerArgs (Path_ <$> logfile a) (quiet a) (debug a)))
                  (files s) with
          | (Logger.SystemExit code, fs, errs) =>
              (Exited code,
               Session (objects s) (accesses s) (rng s) fs (logging s) (errors s ++ errs))
          | (Logger.Raise e, fs, errs) =>
              (Failed e,
               Session (objects s) (accesses s) (rng s) fs (logging s) (errors s ++ errs))
          | (Logger.Configured conf, fs, errs) =>
              let s1 := Session (objects s) (accesses s) (rng s) fs (Some conf)
                                (errors s ++ errs) in
              let '(r, s2) :=
                (lift (logger_info "Parameters\n%s" []);;
                 with_datastore (data_pipeline_config a) (main_body a)) s1 in
              (match r with Returned _ => Done | Raised e => Failed e end, s2)
          end
      end
  end.

End Main.
End Main.

(** ** A small program

    The program over the model of [Scenario]: a store that has every table
    and accepts every write, a network of 1000 people in S, InfectionSets of
    10 people, a random generator that counts its draws, and paths that are
    strings in the directory [logs] of a file system listing its
    directories. *)

Module Program.
Import CLI.

Definition tables (name : string) : outcome unit := Returned tt.

Definition write_table (name : string) (table : Frame.DataFrame) : option exn := None.

Definition Datastore (config : value) : option exn := None.

Definition createNetworkOfPopulation (ts : list unit) (multipliers : option unit)
  : outcome (bool * (float * float)) :=
  Returned (false, (1000%float, 0%float)).

Definition readInitialInfections (t : unit) : outcome float := Returned 10%float.

Definition randomlyInfectRegions (g : nat) (body : bool) (st : float * float)
    (regions age_groups infected : value) : outcome float * nat :=
  (Returned 10%float, S g).

Definition parent (p : string) : option string := Some "logs".

Definition cwd : option string := Some "work".

Definition mkdir (d : string) (fs : list string) : option (list string) :=
  Some (d :: fs).

Definition start : @Main.session bool (float * float) float nat string (list string) :=
  Main.Session (World ∅ []) [] 0%nat [] None [].

Definition seeded (trials : Z) : Main.arguments :=
  Main.Arguments_ Main.Seeded 0 trials false (VStr "config.yaml") None false false
    VNone VNone VNone.

Definition random (trials : Z) : Main.arguments :=
  Main.Arguments_ Main.Random 0 trials true (VStr "config.yaml") None false false
    (VInt 1) (VList [VStr "[17,70)"]) (VInt 100).

Definition main_body (a : Main.arguments) :=
  Main.main_body Scenario.exposeRegions Scenario.basicSimulationInternalAgeStructure
    tables write_table createNetworkOfPopulation readInitialInfections
    randomlyInfectRegions a start.

Definition main (argv : list string) :=
  Main.main Scenario.exposeRegions Scenario.basicSimulationInternalAgeStructure
    decimal id parent cwd mkdir id "simple_network_sim"
    Datastore tables write_table createNetworkOfPopulation readInitialInfections
    randomlyInfectRegions argv start.

End Program.

(** ** Facts about frames *)

Module FrameFacts.
Import Frame.

Lemma set_index_reset_index (a : Indexed) : set_index (reset_index a) = a.
Proof.
  unfold set_index, reset_index. induction a as [|[[[[t n] g] s] v] a IH]; [done|].
  cbn. by rewrite IH.
Qed.

Lemma reset_index_set_index (f : DataFrame) : reset_index (set_index f) = f.
Proof.
  unfold set_index, reset_index. induction f as [|[t n g s v] f IH]; [done|].
  cbn. by rewrite IH.
Qed.

Lemma index_set_index (f : DataFrame) : index (set_index f) = keys f.
Proof. unfold index, set_index, keys. rewrite map_map. done. Qed.

Lemma keys_reset_index (a : Indexed) : keys (reset_index a) = index a.
Proof. by rewrite <- index_set_index, set_index_reset_index. Qed.

Lemma series_add_length (a b : Indexed) :
  length (series_add a b) = length a.
Proof.
  unfold series_add. case_decide as Hix.
  - rewrite length_zip_with, !length_map.
    assert (length a = length b) as Hlen.
    { unfold index in Hix. rewrite <- (length_map fst a), Hix. apply length_map. }
    lia.
  - by rewrite length_map.
Qed.

(** The in-place addition keeps the index of the accumulator. *)
Lemma index_iadd_total (a b : Indexed) : index (iadd_total a b) = index a.
Proof.
  unfold iadd_total, index at 1. apply fst_zip.
  unfold index. rewrite length_map, series_add_length. done.
Qed.

Lemma series_get_positional (k : key) (a b : Indexed) :
  index a = index b ->
  series_get k (zip (index a) (zip_with PrimFloat.add (map snd a) (map snd b)))
  = (fun v => PrimFloat.add v (default nan (series_get k b))) <$> series_get k a.
Proof.
  revert b. induction a as [|[ka va] a IH]; intros [|[kb vb] b] Hix; try done.
  cbn in Hix. injection Hix as -> Hix. cbn.
  case_decide; [done|]. by apply IH.
Qed.

Lemma series_get_aligned (k : key) (a b : Indexed) :
  series_get k (zip (index a)
     (map (fun '(k, v) => PrimFloat.add v (default nan (series_get k b))) a))
  = (fun v => PrimFloat.add v (default nan (series_get k b))) <$> series_get k a.
Proof.
  induction a as [|[ka va] a IH]; [done|]. cbn.
  case_decide as Hk; [by subst|]. apply IH.
Qed.

(** After the in-place addition a label of the accumulator holds its old
    total plus the total the other frame has for this label, NaN when the
    other frame lacks it; a label the accumulator lacks stays absent. *)
Lemma series_get_iadd_total (k : key) (a b : Indexed) :
  series_get k (iadd_total a b)
  = (fun v => PrimFloat.add v (default nan (series_get k b))) <$> series_get k a.
Proof.
  unfold iadd_total, series_add. case_decide.
  - by apply series_get_positional.
  - apply series_get_aligned.
Qed.

Lemma index_accumulate (a : Indexed) (rest : list Indexed) :
  index (accumulate a rest) = index a.
Proof.
  unfold accumulate. revert a. induction rest as [|b rest IH]; intros a; [done|].
  cbn. by rewrite IH, index_iadd_total.
Qed.

Lemma series_get_accumulate (k : key) (a : Indexed) (rest : list Indexed) :
  series_get k (accumulate a rest)
  = (fun v => fold_left PrimFloat.add
                (map (fun b => default nan (series_get k b)) rest) v)
    <$> series_get k a.
Proof.
  unfold accumulate. revert a. induction rest as [|b rest IH]; intros a; cbn.
  - by destruct (series_get k a).
  - rewrite IH, series_get_iadd_total. by destruct (series_get k a).
Qed.

Lemma series_get_Some_index (k : key) (a : Indexed) :
  is_Some (series_get k a) <-> k ∈ index a.
Proof.
  unfold index. induction a as [|[k' v] a IH]; cbn.
  - split; [by intros [? ?]|]. by intros ?%elem_of_nil.
  - case_decide as Hk.
    + subst. split; [intros _; apply list_elem_of_here | eauto].
    + rewrite IH. split; [intros ?; by apply list_elem_of_further | intros [?|?]%elem_of_cons; done].
Qed.

Lemma frame_get_Some_keys (k : key) (f : DataFrame) :
  is_Some (frame_get k f) <-> k ∈ keys f.
Proof. unfold frame_get. by rewrite series_get_Some_index, index_set_index. Qed.

Lemma keys_idiv_total (f : DataFrame) (n : Z) : keys (idiv_total f n) = keys f.
Proof. unfold keys, idiv_total. rewrite map_map. done. Qed.

Lemma frame_get_idiv_total (k : key) (f : DataFrame) (n : Z) :
  frame_get k (idiv_total f n)
  = (fun v => PrimFloat.div v (float_of_int n)) <$> frame_get k f.
Proof.
  unfold frame_get, set_index, idiv_total.
  induction f as [|r f IH]; [done|]. cbn.
  change (row_key (mkRow (time r) (node r) (age r) (state r)
            (PrimFloat.div (total r) (float_of_int n)))) with (row_key r).
  destruct (decide (row_key r = k)); [done|]. apply IH.
Qed.

(** Dividing by one trial leaves a frame as it is, as far as dividing each of
    its totals by 1.0 does. *)
Lemma idiv_total_one (f : DataFrame) :
  Forall (fun r => PrimFloat.div (total r) 1 = total r) f ->
  idiv_total f 1 = f.
Proof.
  unfold idiv_total. induction 1 as [|[t n g s v] f Hr _ IH]; [done|].
  cbn in *. change (float_of_int 1) with 1%float in *. by rewrite Hr, IH.
Qed.

(** The averaged frame, key by key: the first frame's total, then the
    contribution of every later frame added from left to right, divided by
    the number of trials. *)
Lemma frame_get_averaged (k : key) (f0 : DataFrame) (rest : list DataFrame) (n : Z) :
  frame_get k (idiv_total
     (reset_index (accumulate (set_index f0) (map set_index rest))) n)
  = (fun t0 => PrimFloat.div (fold_left PrimFloat.add (map (contribution k) rest) t0)
                 (float_of_int n))
    <$> frame_get k f0.
Proof.
  rewrite frame_get_idiv_total. unfold frame_get at 1.
  rewrite set_index_reset_index, series_get_accumulate, map_map.
  unfold frame_get. by destruct (series_get k (set_index f0)).
Qed.

Lemma keys_averaged (f0 : DataFrame) (rest : list DataFrame) (n : Z) :
  keys (idiv_total
     (reset_index (accumulate (set_index f0) (map set_index rest))) n)
  = keys f0.
Proof.
  by rewrite keys_idiv_total, keys_reset_index, index_accumulate, index_set_index.
Qed.


End FrameFacts.

(** ** Facts about the orchestrator *)

Section OrchestratorFacts.

Context {Structure State InfectionSet : Type}.
Variable exposeRegions : InfectionSet -> State -> State * option exn.
Variable basicSimulationInternalAgeStructure :
  Structure -> State -> Z -> (Structure * State) * outcome Frame.DataFrame.

Local Abbreviation obj := (@obj Structure State).
Local Abbreviation event := (@event Structure State InfectionSet).
Local Abbreviation world := (@world Structure State InfectionSet).
Local Abbreviation runSimulation :=
  (runSimulation exposeRegions basicSimulationInternalAgeStructure).
Local Abbreviation single_trial_path :=
  (single_trial_path exposeRegions basicSimulationInternalAgeStructure).
Local Abbreviation multi_trial_path :=
  (multi_trial_path exposeRegions basicSimulationInternalAgeStructure).
Local Abbreviation trial_body :=
  (trial_body exposeRegions basicSimulationInternalAgeStructure).
Local Abbreviation trial_frame :=
  (trial_frame exposeRegions basicSimulationInternalAgeStructure).
Local Abbreviation trial_outcome :=
  (trial_outcome exposeRegions basicSimulationInternalAgeStructure).
Local Abbreviation trial_events := (trial_events exposeRegions).
Local Abbreviation trial_results :=
  (trial_results exposeRegions basicSimulationInternalAgeStructure).
Local Abbreviation isolated := (isolated exposeRegions).
Local Abbreviation trial_core :=
  (trial_core exposeRegions basicSimulationInternalAgeStructure).

#[local] Existing Instances M_ret M_bind.

Implicit Types (w : world) (h : gmap loc obj) (network d : loc)
  (body : Structure) (infs : list InfectionSet)
  (max_time trials i : Z).

Ltac unfold_M :=
  unfold mbind, mret, M_bind, M_ret, bind, ret, raise, logger_info, emit in *.

Lemma getitem_nonneg {A} (l : list A) i (w : world) :
  0 <= i ->
  getitem l i w
  = (match l !! Z.to_nat i with Some a => Returned a | None => Raised IndexError end, w).
Proof.
  intros Hi. unfold getitem.
  destruct (Z.ltb_spec i 0) as [?|_]; [lia|].
  destruct (Z.leb_spec 0 i) as [_|?]; [|lia].
  by destruct (l !! Z.to_nat i).
Qed.

Lemma deepcopy_spec network body st0 w :
  network_at (heap w) network body st0 ->
  exists d sl',
    (d ∉ dom (heap w)) /\ (sl' ∉ dom (heap w)) /\ d <> sl' /\
    deepcopy network w
    = (Returned d,
       World (<[d := ONetwork body sl']> (<[sl' := OState st0]> (heap w)))
             (trace w ++ [Deepcopy network d])).
Proof.
  intros (sl & Hn & Hs). unfold deepcopy. rewrite Hn, Hs.
  set (sl' := fresh (dom (heap w))).
  set (d := fresh (dom (<[sl' := OState st0]> (heap w)))).
  assert (sl' ∉ dom (heap w)) as Hsl' by apply is_fresh.
  assert (d ∉ dom (<[sl' := OState st0]> (heap w))) as Hd by apply is_fresh.
  rewrite dom_insert_L in Hd.
  exists d, sl'. repeat split; [set_solver | done | set_solver].
Qed.

Lemma heap_extended h h' :
  (forall l, l ∈ dom h -> h' !! l = h !! l) -> h ⊆ h'.
Proof.
  intros Hsame. apply map_subseteq_spec. intros l x Hl.
  rewrite Hsame; [done|]. apply elem_of_dom. eauto.
Qed.

(** One trial on an intact template: what it yields, what it calls, and
    that it leaves every object of the heap it started in as it was. *)
Lemma trial_core_spec network max_time infs i body st0 w :
  network_at (heap w) network body st0 ->
  0 <= i ->
  exists d sl' h',
    heap w ⊆ h' /\ (d ∉ dom (heap w)) /\ (sl' ∉ dom (heap w)) /\ (d ∈ dom h') /\
    (exists b, h' !! d = Some (ONetwork b sl')) /\
    trial_core network max_time infs i w
    = (trial_outcome body st0 max_time (infs !! Z.to_nat i),
       World h' (trace w ++ trial_events network d sl' body st0 max_time
                                     (infs !! Z.to_nat i))).
Proof.
  intros Hnet Hi.
  destruct (deepcopy_spec _ _ _ _ Hnet) as (d & sl' & Hd & Hsl' & Hne & Hcopy).
  exists d, sl'. unfold trial_core. unfold_M. rewrite Hcopy.
  rewrite getitem_nonneg by done.
  destruct (infs !! Z.to_nat i) as [inf|]; cbn.
  2:{ eexists. split_and!; [| done | done | | | reflexivity].
      - apply heap_extended. intros l Hl.
        rewrite !lookup_insert_ne by set_solver. done.
      - set_solver.
      - eexists. apply lookup_insert_eq. }
  unfold get_initialState, call_exposeRegions, trial_frame, trial_events; simpl.
  rewrite lookup_insert_eq. simpl. rewrite lookup_insert_ne by done.
  rewrite lookup_insert_eq.
  destruct (exposeRegions inf st0) as [st1 [e|]]; simpl.
  { eexists. split_and!; [| done | done | | | rewrite <- app_assoc; reflexivity].
    - apply heap_extended. intros l Hl.
      rewrite !lookup_insert_ne by set_solver. done.
    - set_solver.
    - eexists. rewrite lookup_insert_ne by done. apply lookup_insert_eq. }
  unfold call_basicSimulationInternalAgeStructure; simpl.
  rewrite lookup_insert_ne by done. rewrite lookup_insert_eq.
  rewrite lookup_insert_eq.
  destruct (basicSimulationInternalAgeStructure body st1 max_time)
    as [[body' st2] r]; simpl.
  eexists. split_and!; [| done | done | | | rewrite <- !app_assoc; reflexivity].
  - apply heap_extended. intros l Hl.
    rewrite !lookup_insert_ne by set_solver. done.
  - set_solver.
  - eexists. apply lookup_insert_eq.
Qed.

Lemma network_at_weaken h h' network body st0 :
  network_at h network body st0 -> h ⊆ h' -> network_at h' network body st0.
Proof.
  intros (sl & Hn & Hs) Hsub. exists sl.
  split; eapply lookup_weaken; done.
Qed.

Lemma single_trial_path_unfold network max_time infs w :
  single_trial_path network max_time infs w
  = trial_core network max_time infs 0
      (World (heap w) (trace w ++ [LogInfo "Running simulation (1/1)" []])).
Proof. reflexivity. Qed.

Lemma trial_body_unfold network max_time trials infs i acc w :
  trial_body network max_time trials infs i acc w
  = match trial_core network max_time infs i
            (World (heap w)
               (trace w ++ [LogInfo "Running simulation (%s/%s)" [i + 1; trials]])) with
    | (Returned f, w1) =>
        (Returned (merge acc f),
         World (heap w1)
           (trace w1 ++ SetIndex :: match acc with None => [] | Some _ => [IaddTotal] end))
    | (Raised e, w1) => (Raised e, w1)
    end.
Proof.
  unfold trial_body, trial_core. unfold_M. cbn.
  destruct (deepcopy _ _) as [[d|e] w1]; [|done].
  destruct (getitem _ _ _) as [[inf|e] w2]; [|done].
  destruct (get_initialState _ _) as [[sl|e] w3]; [|done].
  destruct (call_exposeRegions _ _ _ _) as [[[]|e] w4]; [|done].
  destruct (call_basicSimulationInternalAgeStructure _ _ _ _) as [[f|e] w5]; [|done].
  destruct acc; cbn; [|done]. by rewrite <- app_assoc.
Qed.

Lemma calls_app (p : event -> bool) (evs evs' : list event) :
  calls p (evs ++ evs') = (calls p evs + calls p evs')%nat.
Proof. unfold calls. by rewrite List.filter_app, length_app. Qed.

Lemma clones_app (evs evs' : list event) :
  clones (evs ++ evs') = clones evs ++ clones evs'.
Proof. apply omap_app. Qed.

(** A trial that returns a frame made one clone, one exposure and one run
    of the model. *)
Lemma events_of_returned network d sl' body st0 max_time oinf f :
  trial_outcome body st0 max_time oinf = Returned f ->
  exists inf, oinf = Some inf /\
    trial_events network d sl' body st0 max_time oinf
    = [Deepcopy network d; ExposeRegions inf sl' st0;
       Simulation d body (fst (exposeRegions inf st0)) max_time].
Proof.
  destruct oinf as [inf|]; [|done]. unfold trial_outcome, trial_frame, trial_events.
  intros Hf. exists inf. split; [done|].
  destruct (exposeRegions inf st0) as [st1 [e|]]; done.
Qed.

Lemma events_of_isolated h0 network d sl' body st0 max_time oinf :
  d ∉ dom h0 -> sl' ∉ dom h0 ->
  Forall (isolated h0 body st0)
    (trial_events network d sl' body st0 max_time oinf).
Proof.
  intros Hd Hsl'. unfold trial_events. constructor; [done|].
  destruct oinf as [inf|]; [|done]. constructor; [done|].
  destruct (exposeRegions inf st0) as [st1 [e|]] eqn:Hexp; [done|].
  constructor; [|done]. cbn. split_and!; [done..|].
  exists inf. by rewrite Hexp.
Qed.

Lemma clones_events_of network d sl' body st0 max_time oinf :
  clones (trial_events network d sl' body st0 max_time oinf) = [d].
Proof.
  unfold trial_events, clones. cbn. destruct oinf as [inf|]; [|done]. cbn.
  destruct (exposeRegions inf st0) as [st1 [e|]]; done.
Qed.

Lemma exposures_app (evs evs' : list event) :
  exposures (evs ++ evs') = exposures evs ++ exposures evs'.
Proof. apply omap_app. Qed.

Lemma exposures_events_of network d sl' body st0 max_time oinf :
  exposures (trial_events network d sl' body st0 max_time oinf) = option_list oinf.
Proof.
  unfold trial_events, exposures. cbn. destruct oinf as [inf|]; [|done]. cbn.
  destruct (exposeRegions inf st0) as [st1 [e|]]; done.
Qed.

(** The entries of [infs] at consecutive indexes from [m] on are a prefix
    of what [infs] holds from [m] on. *)
Lemma lookups_prefix infs (js : list Z) (l : list InfectionSet) m n :
  0 <= m ->
  js `prefix_of` seqZ m n ->
  Forall2 (fun j inf => infs !! Z.to_nat j = Some inf) js l ->
  l `prefix_of` drop (Z.to_nat m) infs.
Proof.
  intros Hm Hjs Hl. revert m n Hm Hjs.
  induction Hl as [|j inf js l Hj Hl IH]; intros m n Hm Hjs.
  - apply prefix_nil.
  - destruct (Z.le_gt_cases n 0) as [Hn|Hn].
    { rewrite seqZ_nil in Hjs by done. by apply prefix_nil_not in Hjs. }
    rewrite seqZ_cons in Hjs by lia.
    apply prefix_cons_inv_1 in Hjs as Hjm. subst j.
    apply prefix_cons_inv_2 in Hjs.
    rewrite (drop_S _ _ _ Hj). apply prefix_cons.
    replace (S (Z.to_nat m)) with (Z.to_nat (Z.succ m)) by lia.
    eapply IH; [lia | done].
Qed.

(** One round of the loop on an intact template. *)
Lemma trial_body_spec network max_time trials infs i acc body st0 w :
  network_at (heap w) network body st0 ->
  0 <= i ->
  exists d sl' h',
    heap w ⊆ h' /\ (d ∉ dom (heap w)) /\ (sl' ∉ dom (heap w)) /\ (d ∈ dom h') /\
    trial_body network max_time trials infs i acc w
    = match trial_outcome body st0 max_time (infs !! Z.to_nat i) with
      | Returned f =>
          (Returned (merge acc f),
           World h' (trace w ++
             LogInfo "Running simulation (%s/%s)" [i + 1; trials] ::
             trial_events network d sl' body st0 max_time (infs !! Z.to_nat i) ++
             SetIndex :: match acc with None => [] | Some _ => [IaddTotal] end))
      | Raised e =>
          (Raised e,
           World h' (trace w ++
             LogInfo "Running simulation (%s/%s)" [i + 1; trials] ::
             trial_events network d sl' body st0 max_time (infs !! Z.to_nat i)))
      end.
Proof.
  intros Hnet Hi. rewrite trial_body_unfold.
  set (w1 := World (heap w) _).
  destruct (trial_core_spec network max_time infs i body st0 w1 Hnet Hi)
    as (d & sl' & h' & Hsub & Hd & Hsl' & Hd' & _ & ->).
  exists d, sl', h'. split_and!; [done..|]. subst w1. simpl.
  destruct (trial_outcome _ _ _ _) as [f|e]; simpl;
    rewrite <- ?app_assoc; reflexivity.
Qed.

(** The trials that return a frame, at the head of a loop: the loop goes on
    from the merged accumulator, having made one clone and one run each. *)
Lemma for_each_successes network max_time trials infs body st0
    (is_ rest : list Z) (frames : list Frame.DataFrame) acc w :
  network_at (heap w) network body st0 ->
  Forall (fun i => 0 <= i) is_ ->
  Forall2 (fun i f => trial_outcome body st0 max_time (infs !! Z.to_nat i) = Returned f)
    is_ frames ->
  exists w1 evs,
    heap w ⊆ heap w1 /\ trace w1 = trace w ++ evs /\
    calls is_deepcopy evs = length frames /\
    calls is_exposure evs = length frames /\
    calls is_simulation evs = length frames /\
    for_each (is_ ++ rest) (trial_body network max_time trials infs) acc w
    = for_each rest (trial_body network max_time trials infs)
        (fold_left merge frames acc) w1.
Proof.
  intros Hnet Hpos Hok. revert acc w Hnet.
  induction Hok as [|i f is_ frames Hf Hok IH]; intros acc w Hnet.
  - exists w, []. rewrite app_nil_r. by split_and!.
  - apply Forall_cons in Hpos as [Hi Hpos].
    destruct (trial_body_spec network max_time trials infs i acc body st0 w Hnet Hi)
      as (d & sl' & h' & Hsub & Hd & Hsl' & Hd' & Hbody).
    rewrite Hf in Hbody.
    destruct (events_of_returned network d sl' _ _ _ _ _ Hf) as (inf & Hinf & Hev).
    rewrite Hev in Hbody.
    match type of Hbody with _ = (_, ?w') => set (w2 := w') in * end.
    destruct (IH Hpos (merge acc f) w2) as (w1 & evs & Hsub1 & Htr & Hc1 & Hc2 & Hc3 & Hloop).
    { eapply network_at_weaken; done. }
    eexists w1, _. split_and!.
    + etrans; done.
    + rewrite Htr. subst w2. simpl. rewrite <- app_assoc. reflexivity.
    + rewrite calls_app, Hc1. by destruct acc.
    + rewrite calls_app, Hc2. by destruct acc.
    + rewrite calls_app, Hc3. by destruct acc.
    + simpl. unfold mbind, M_bind, bind. rewrite Hbody. exact Hloop.
Qed.

(** Whatever the trials do, the loop leaves the objects of the heap it
    started in as they were, writes to the clones only, and every trial
    starts from the content of the template. *)
Lemma for_each_isolated network max_time trials infs body st0 h0
    (is_ : list Z) acc w r w' :
  network_at h0 network body st0 ->
  h0 ⊆ heap w ->
  Forall (fun i => 0 <= i) is_ ->
  for_each is_ (trial_body network max_time trials infs) acc w = (r, w') ->
  heap w ⊆ heap w' /\
  exists evs, trace w' = trace w ++ evs /\
    Forall (isolated h0 body st0) evs /\
    Forall (fun l => (l ∈ dom (heap w')) /\ (l ∉ dom (heap w))) (clones evs) /\
    NoDup (clones evs) /\
    exists js, js `prefix_of` is_ /\
      Forall2 (fun j inf => infs !! Z.to_nat j = Some inf) js (exposures evs).
Proof.
  intros Hnet Hh0 Hpos. revert acc w Hh0.
  induction Hpos as [|i is_ Hi Hpos IH]; intros acc w Hh0 Hrun.
  - injection Hrun as <- <-. split; [done|]. exists [].
    rewrite app_nil_r. split_and!; [done | done | done | apply NoDup_nil_2 |].
    exists []. split; [done | constructor].
  - simpl in Hrun. unfold mbind, M_bind, bind in Hrun.
    assert (network_at (heap w) network body st0) as Hnetw
      by (eapply network_at_weaken; done).
    destruct (trial_body_spec network max_time trials infs i acc body st0 w Hnetw Hi)
      as (d & sl' & h' & Hsub & Hd & Hsl' & Hd' & Hbody).
    assert ((d ∉ dom h0) /\ (sl' ∉ dom h0)) as [Hd0 Hsl0].
    { apply subseteq_dom in Hh0. split; intros Hin; [apply Hd | apply Hsl']; by apply Hh0. }
    pose proof (events_of_isolated h0 network d sl' body st0 max_time
                  (infs !! Z.to_nat i) Hd0 Hsl0) as Hiso.
    pose proof (clones_events_of network d sl' body st0 max_time
                  (infs !! Z.to_nat i)) as Hcl.
    pose proof (exposures_events_of network d sl' body st0 max_time
                  (infs !! Z.to_nat i)) as Hex.
    rewrite Hbody in Hrun.
    destruct (trial_outcome _ _ _ _) as [f|e] eqn:Hout.
    + match type of Hrun with for_each _ _ _ ?w0 = _ => set (w2 := w0) in * end.
      destruct (IH (merge acc f) w2)
        as (Hsub2 & evs & Htr & Hiso2 & Hfresh & Hnd & js & Hjs & Hinfs).
      { etrans; done. }
      { done. }
      subst w2. cbn [heap trace] in *. split; [etrans; done|].
      eexists. split_and!.
      * rewrite Htr, <- app_assoc. reflexivity.
      * apply Forall_app. split; [|done]. constructor; [done|].
        apply Forall_app. split; [done|]. by destruct acc; repeat constructor.
      * rewrite clones_app. change (clones (?e :: ?l)) with (clones l) at 1.
        rewrite clones_app, Hcl.
        replace (clones (SetIndex :: _)) with (@nil loc) by by destruct acc.
        simpl. constructor.
        -- split; [|done]. apply subseteq_dom in Hsub2. by apply Hsub2.
        -- eapply Forall_impl; [exact Hfresh|]. simpl. intros l [? Hl].
           split; [done|]. apply subseteq_dom in Hsub. intros Hin. by apply Hl, Hsub.
      * rewrite clones_app. change (clones (?e :: ?l)) with (clones l) at 1.
        rewrite clones_app, Hcl.
        replace (clones (SetIndex :: _)) with (@nil loc) by by destruct acc.
        simpl. apply NoDup_cons. split; [|done].
        intros Hin. rewrite Forall_forall in Hfresh.
        apply Hfresh in Hin as [_ Hin]. done.
      * destruct (events_of_returned network d sl' _ _ _ _ _ Hout)
          as (inf & Hinf & _).
        exists (i :: js). split; [by apply prefix_cons|].
        rewrite exposures_app. change (exposures (?e :: ?l)) with (exposures l) at 1.
        rewrite exposures_app, Hex, Hinf.
        replace (exposures (SetIndex :: _)) with (@nil InfectionSet)
          by by destruct acc.
        simpl. by constructor.
    + injection Hrun as <- <-. cbn [heap trace]. split; [done|].
      eexists. split_and!; [reflexivity | by constructor | | |].
      * change (clones (?e :: ?l)) with (clones l) at 1. rewrite Hcl.
        repeat constructor; done.
      * change (clones (?e :: ?l)) with (clones l) at 1. rewrite Hcl.
        apply NoDup_singleton.
      * change (exposures (?e :: ?l)) with (exposures l) at 1. rewrite Hex.
        destruct (infs !! Z.to_nat i) as [inf|] eqn:Hinf; simpl.
        -- exists [i]. split; [apply prefix_cons, prefix_nil|].
           by repeat constructor.
        -- exists []. split; [apply prefix_nil | constructor].
Qed.

Lemma single_trial_path_spec network max_time infs body st0 w :
  network_at (heap w) network body st0 ->
  exists d sl' h',
    heap w ⊆ h' /\ (d ∉ dom (heap w)) /\ (sl' ∉ dom (heap w)) /\
    (exists b, h' !! d = Some (ONetwork b sl')) /\
    single_trial_path network max_time infs w
    = (trial_outcome body st0 max_time (infs !! 0%nat),
       World h' (trace w ++ LogInfo "Running simulation (1/1)" [] ::
                 trial_events network d sl' body st0 max_time (infs !! 0%nat))).
Proof.
  intros Hnet. rewrite single_trial_path_unfold.
  set (w1 := World (heap w) _).
  destruct (trial_core_spec network max_time infs 0 body st0 w1 Hnet)
    as (d & sl' & h' & Hsub & Hd & Hsl' & _ & Hptr & ->); [done|].
  exists d, sl', h'. split_and!; [done..|]. subst w1. simpl.
  by rewrite <- app_assoc.
Qed.

Lemma range_nonneg n : Forall (fun i => 0 <= i) (range n).
Proof. apply Forall_forall. intros i Hi%elem_of_seqZ. lia. Qed.

Lemma fold_left_merge (rest : list Frame.DataFrame) (a : Frame.Indexed) :
  fold_left merge rest (Some a)
  = Some (Frame.accumulate a (map Frame.set_index rest)).
Proof.
  unfold Frame.accumulate. revert a.
  induction rest as [|f rest IH]; intros a; [done|]. simpl. apply IH.
Qed.

(** The multi-trial path when every trial returns a frame. *)
Lemma multi_trial_path_returns network max_time trials infs body st0 f0 rest w :
  network_at (heap w) network body st0 ->
  trial_results body st0 max_time infs (range trials) (f0 :: rest) ->
  exists w' evs,
    heap w ⊆ heap w' /\ trace w' = trace w ++ evs /\
    calls is_deepcopy evs = S (length rest) /\
    calls is_exposure evs = S (length rest) /\
    calls is_simulation evs = S (length rest) /\
    multi_trial_path network max_time trials infs w
    = (Returned (Frame.idiv_total
         (Frame.reset_index
            (Frame.accumulate (Frame.set_index f0) (map Frame.set_index rest)))
         trials), w').
Proof.
  intros Hnet Hres.
  destruct (for_each_successes network max_time trials infs body st0
              (range trials) [] (f0 :: rest) None w Hnet (range_nonneg _) Hres)
    as (w1 & evs & Hsub & Htr & Hc1 & Hc2 & Hc3 & Hloop).
  rewrite app_nil_r in Hloop.
  unfold multi_trial_path. unfold mbind at 1. unfold M_bind, bind.
  rewrite Hloop. simpl. rewrite fold_left_merge. unfold_M. simpl.
  exists (World (heap w1) ((trace w1 ++ [ResetIndex]) ++ [IdivTotal trials])),
    (evs ++ [ResetIndex; IdivTotal trials]).
  split_and!; [done | | | | | reflexivity].
  - simpl. rewrite Htr, <- !app_assoc. done.
  - rewrite calls_app, Hc1. simpl. unfold calls. simpl. lia.
  - rewrite calls_app, Hc2. simpl. unfold calls. simpl. lia.
  - rewrite calls_app, Hc3. simpl. unfold calls. simpl. lia.
Qed.

Lemma runSimulation_multi network max_time trials infs w :
  1 < trials ->
  runSimulation network max_time trials infs w = multi_trial_path network max_time trials infs w.
Proof.
  intros Ht. unfold runSimulation.
  destruct (Z.leb_spec trials 1); [lia | done].
Qed.

Lemma runSimulation_single network max_time trials infs w :
  trials <= 1 ->
  runSimulation network max_time trials infs w = single_trial_path network max_time infs w.
Proof.
  intros Ht. unfold runSimulation.
  destruct (Z.leb_spec trials 1); [done | lia].
Qed.

Lemma trial_results_length body st0 max_time infs trials frames :
  trial_results body st0 max_time infs (range trials) frames ->
  length frames = Z.to_nat trials.
Proof.
  intros Hres%Forall2_length. unfold range in Hres.
  by rewrite length_seqZ in Hres.
Qed.


(** C7. When every trial of a multi-trial run returns a row set over the
    same keys, the averaged output has the keys of the first trial's
    output, in its order, and so the key set of every trial's output. *)
Theorem key_space_stability network max_time trials infs body st0 frames w :
  1 < trials ->
  network_at (heap w) network body st0 ->
  trial_results body st0 max_time infs (range trials) frames ->
  Forall (fun f => NoDup (Frame.keys f)) frames ->
  Frame.same_key_space frames ->
  exists averaged w',
    runSimulation network max_time trials infs w = (Returned averaged, w') /\
    Frame.keys averaged = Frame.keys (default [] (head frames)) /\
    forall f k, f ∈ frames -> k ∈ Frame.keys averaged <-> k ∈ Frame.keys f.
Proof.
  intros Ht Hnet Hres _ Hsame.
  pose proof (trial_results_length _ _ _ _ _ _ Hres) as Hlen.
  destruct frames as [|f0 rest]; [simpl in Hlen; lia|].
  destruct (multi_trial_path_returns _ _ _ _ _ _ _ _ _ Hnet Hres)
    as (w' & evs & _ & _ & _ & _ & _ & Hrun).
  eexists _, w'. split; [by rewrite runSimulation_multi|].
  rewrite FrameFacts.keys_averaged. split; [done|].
  intros f k Hf. apply Hsame; [left | done].
Qed.

(** C4, as the code has it. A multi-trial run whose trials all return row
    sets returns an average whatever their keys are: the output has the
    keys of the first trial, a key that only later trials have is left out,
    and where a later trial lacks a key of the first trial, NaN is added in
    place of its total. *)
Theorem key_mismatch_is_aligned network max_time trials infs body st0 f0 rest w :
  1 < trials ->
  network_at (heap w) network body st0 ->
  trial_results body st0 max_time infs (range trials) (f0 :: rest) ->
  Forall (fun f => NoDup (Frame.keys f)) (f0 :: rest) ->
  exists averaged w',
    runSimulation network max_time trials infs w = (Returned averaged, w') /\
    Frame.keys averaged = Frame.keys f0 /\
    (forall k, k ∉ Frame.keys f0 -> Frame.frame_get k averaged = None) /\
    (forall k t0, Frame.frame_get k f0 = Some t0 ->
       Frame.frame_get k averaged
       = Some (PrimFloat.div
                 (fold_left PrimFloat.add (map (Frame.contribution k) rest) t0)
                 (Frame.float_of_int trials))).
Proof.
  intros Ht Hnet Hres _.
  destruct (multi_trial_path_returns _ _ _ _ _ _ _ _ _ Hnet Hres)
    as (w' & evs & _ & _ & _ & _ & _ & Hrun).
  eexists _, w'. split; [by rewrite runSimulation_multi|].
  split_and!.
  - apply FrameFacts.keys_averaged.
  - intros k Hk. rewrite FrameFacts.frame_get_averaged.
    destruct (Frame.frame_get k f0) as [t|] eqn:Hget; [|done].
    exfalso. apply Hk, FrameFacts.frame_get_Some_keys. eauto.
  - intros k t0 Hget. by rewrite FrameFacts.frame_get_averaged, Hget.
Qed.

(** C5. With at most one trial requested, the run logs its only trial,
    clones the template once, applies the first InfectionSet to the initial
    state of the clone, runs the model once on the clone, and returns what
    the model returned as it is: no step of the averaging takes place. *)
Theorem single_trial_path_algorithm
    network max_time trials inf rest body st0 st1 w :
  trials <= 1 ->
  network_at (heap w) network body st0 ->
  exposeRegions inf st0 = (st1, None) ->
  exists d sl' w',
    runSimulation network max_time trials (inf :: rest) w
    = (snd (basicSimulationInternalAgeStructure body st1 max_time), w') /\
    trace w' = trace w ++
      [LogInfo "Running simulation (1/1)" []; Deepcopy network d;
       ExposeRegions inf sl' st0; Simulation d body st1 max_time] /\
    (d ∉ dom (heap w)) /\ (sl' ∉ dom (heap w)) /\
    (exists b, heap w' !! d = Some (ONetwork b sl')) /\
    calls is_averaging (trace w') = calls is_averaging (trace w).
Proof.
  intros Ht Hnet Hexp.
  destruct (single_trial_path_spec network max_time (inf :: rest) body st0 w Hnet)
    as (d & sl' & h' & Hsub & Hd & Hsl' & Hptr & Hrun).
  exists d, sl'. eexists. rewrite runSimulation_single by done.
  split; [rewrite Hrun; simpl; unfold trial_frame; rewrite Hexp; reflexivity|].
  simpl. unfold trial_events. rewrite Hexp.
  split_and!; [done..|]. rewrite calls_app. unfold calls at 2. simpl. lia.
Qed.

(** C9. With at most one trial requested only the first InfectionSet is
    read: the run is the same whatever follows it in the sequence. With no
    InfectionSet at all the run raises IndexError at that first access: the
    template has been cloned, the model has not been called. *)
Theorem single_trial_reads_first_only network max_time trials body st0 w :
  trials <= 1 ->
  network_at (heap w) network body st0 ->
  (forall inf rest rest',
     runSimulation network max_time trials (inf :: rest) w
     = runSimulation network max_time trials (inf :: rest') w) /\
  (exists d w',
     runSimulation network max_time trials [] w = (Raised IndexError, w') /\
     trace w' = trace w ++
       [LogInfo "Running simulation (1/1)" []; Deepcopy network d]).
Proof.
  intros Ht Hnet. split.
  - intros inf rest rest'. rewrite !runSimulation_single by done.
    unfold single_trial_path. unfold_M. simpl.
    destruct (deepcopy network _) as [[d|e] w1]; done.
  - destruct (single_trial_path_spec network max_time [] body st0 w Hnet)
      as (d & sl' & h' & _ & _ & _ & _ & Hrun).
    exists d. eexists. rewrite runSimulation_single by done.
    split; [exact Hrun | reflexivity].
Qed.

(** C6. A run leaves the template, and every other object of the heap it
    started in, as it found them. Each trial works on a clone made for it:
    the clones are new, pairwise distinct objects, the model writes to new
    objects only, and each trial's exposure and model run start from the
    content of the template, so that no trial sees what another one did.
    The trials are given the InfectionSets of the sequence, in its order. *)
Theorem trial_isolation network max_time trials infs body st0 w r w' :
  network_at (heap w) network body st0 ->
  runSimulation network max_time trials infs w = (r, w') ->
  heap w ⊆ heap w' /\
  network_at (heap w') network body st0 /\
  exists evs, trace w' = trace w ++ evs /\
    Forall (isolated (heap w) body st0) evs /\
    NoDup (clones evs) /\
    exposures evs `prefix_of` infs.
Proof.
  intros Hnet Hrun.
  cut (heap w ⊆ heap w' /\
       exists evs, trace w' = trace w ++ evs /\
         Forall (isolated (heap w) body st0) evs /\
         NoDup (clones evs) /\
         exposures evs `prefix_of` infs).
  { intros (Hsub & Hevs). split_and!; [done | by eapply network_at_weaken | done]. }
  unfold runSimulation in Hrun.
  destruct (trials <=? 1).
  - destruct (single_trial_path_spec network max_time infs body st0 w Hnet)
      as (d & sl' & h' & Hsub & Hd & Hsl' & _ & Hsingle).
    rewrite Hsingle in Hrun. injection Hrun as <- <-. simpl.
    split; [done|]. eexists. split_and!; [reflexivity | | |].
    + constructor; [done|]. by apply events_of_isolated.
    + change (clones (?e :: ?l)) with (clones l) at 1.
      rewrite clones_events_of. apply NoDup_singleton.
    + change (exposures (?e :: ?l)) with (exposures l) at 1.
      rewrite exposures_events_of.
      destruct infs as [|inf infs']; [apply prefix_nil|].
      apply prefix_cons, prefix_nil.
  - unfold multi_trial_path in Hrun. unfold mbind at 1 in Hrun.
    unfold M_bind, bind in Hrun.
    destruct (for_each _ _ _ _) as [[acc|e] w1] eqn:Hloop.
    + destruct (for_each_isolated network max_time trials infs body st0 (heap w)
                  _ _ _ _ _ Hnet (reflexivity _) (range_nonneg _) Hloop)
        as (Hsub & evs & Htr & Hiso & _ & Hnd & js & Hjs & Hinfs).
      pose proof (lookups_prefix _ _ _ 0 trials (reflexivity _) Hjs Hinfs) as Hpre.
      destruct acc as [a|]; unfold_M; simpl in Hrun; injection Hrun as <- <-.
      * simpl. split; [done|]. exists (evs ++ [ResetIndex; IdivTotal trials]).
        split_and!.
        -- rewrite Htr, <- !app_assoc. done.
        -- apply Forall_app. split; [done|]. by repeat constructor.
        -- rewrite clones_app. simpl. by rewrite app_nil_r.
        -- rewrite exposures_app. simpl. by rewrite app_nil_r.
      * split; [done|]. by exists evs.
    + injection Hrun as <- <-.
      destruct (for_each_isolated network max_time trials infs body st0 (heap w)
                  _ _ _ _ _ Hnet (reflexivity _) (range_nonneg _) Hloop)
        as (Hsub & evs & Htr & Hiso & _ & Hnd & js & Hjs & Hinfs).
      pose proof (lookups_prefix _ _ _ 0 trials (reflexivity _) Hjs Hinfs) as Hpre.
      split; [done|]. by exists evs.
Qed.

(** The trial does not read the trace: it only appends to it. *)
Lemma trial_core_trace network max_time infs i h (tr : list event) :
  trial_core network max_time infs i (World h tr)
  = (fst (trial_core network max_time infs i (World h [])),
     World (heap (snd (trial_core network max_time infs i (World h []))))
           (tr ++ trace (snd (trial_core network max_time infs i (World h []))))).
Proof.
  unfold trial_core, deepcopy, getitem, get_initialState, call_exposeRegions,
    call_basicSimulationInternalAgeStructure.
  unfold_M. simpl.
  repeat (case_match; simplify_eq; simpl in * );
    rewrite ?app_nil_r, <- ?app_assoc; try done.
Qed.

(** C2. With one trial, the multi-trial path, were it taken, would call the
    model as the single-trial path does and return the same rows with the
    same totals, and leave the same heap: it only divides every total by
    1.0, which does not change it. *)
Theorem single_trial_equivalence network max_time infs w :
  (forall f, fst (single_trial_path network max_time infs w) = Returned f ->
             Forall (fun r => PrimFloat.div (Frame.total r) 1 = Frame.total r) f) ->
  fst (multi_trial_path network max_time 1 infs w)
  = fst (single_trial_path network max_time infs w) /\
  heap (snd (multi_trial_path network max_time 1 infs w))
  = heap (snd (single_trial_path network max_time infs w)).
Proof.
  intros Hdiv. revert Hdiv. rewrite single_trial_path_unfold.
  unfold multi_trial_path.
  change (range 1) with [0]. simpl for_each.
  unfold mbind, M_bind, bind. rewrite trial_body_unfold.
  rewrite (trial_core_trace _ _ _ _ _ (trace w ++ [LogInfo "Running simulation (1/1)" []])).
  rewrite (trial_core_trace _ _ _ _ _ (trace w ++ [LogInfo _ [0 + 1; 1]])).
  destruct (trial_core network max_time infs 0 (World (heap w) [])) as [[f|e] w1];
    simpl; [|done].
  intros Hdiv. unfold_M. simpl.
  rewrite FrameFacts.reset_index_set_index.
  rewrite FrameFacts.idiv_total_one by (by apply Hdiv). done.
Qed.


(** C8. One node, one age group, compartments S and I, time horizon 0 and
    three trials whose results at time 0 are I = 10, 20, 30 and
    S = 990, 980, 970: the run returns I = 20 and S = 980 at time 0, and no
    other row. *)
Theorem concrete_scenario network infs body st0 f1 f2 f3 (n a : string) w :
  network_at (heap w) network body st0 ->
  trial_results body st0 0 infs (range 3) [f1; f2; f3] ->
  Forall (fun f => Frame.keys f ≡ₚ [(0, n, a, "S"); (0, n, a, "I")]) [f1; f2; f3] ->
  Forall2 (fun f t => Frame.frame_get (0, n, a, "I") f = Some t) [f1; f2; f3]
    [10; 20; 30]%float ->
  Forall2 (fun f t => Frame.frame_get (0, n, a, "S") f = Some t) [f1; f2; f3]
    [990; 980; 970]%float ->
  exists averaged w',
    runSimulation network 0 3 infs w = (Returned averaged, w') /\
    Frame.frame_get (0, n, a, "I") averaged = Some 20%float /\
    Frame.frame_get (0, n, a, "S") averaged = Some 980%float /\
    Frame.keys averaged ≡ₚ [(0, n, a, "S"); (0, n, a, "I")].
Proof.
  intros Hnet Hres Hkeys HI HS.
  destruct (multi_trial_path_returns _ _ _ _ _ _ _ _ _ Hnet Hres)
    as (w' & evs & _ & _ & _ & _ & _ & Hrun).
  eexists _, w'. rewrite runSimulation_multi by done.
  split; [exact Hrun|].
  rewrite !FrameFacts.frame_get_averaged, FrameFacts.keys_averaged.
  apply Forall2_cons_1 in HI as [HI1 [HI2 [HI3 _]%Forall2_cons_1]%Forall2_cons_1].
  apply Forall2_cons_1 in HS as [HS1 [HS2 [HS3 _]%Forall2_cons_1]%Forall2_cons_1].
  unfold Frame.contribution. simpl.
  rewrite HI1, HI2, HI3, HS1, HS2, HS3. simpl.
  split_and!; [reflexivity | reflexivity |].
  by apply Forall_cons_1 in Hkeys as [? _].
Qed.

(** *** Failing trials, and the steps of a run that returns *)

Lemma log_lines_app (evs evs' : list event) :
  log_lines (evs ++ evs') = log_lines evs ++ log_lines evs'.
Proof. apply omap_app. Qed.

Lemma calls_cons (p : event -> bool) (e : event) (evs : list event) :
  calls p (e :: evs) = ((if p e then 1 else 0) + calls p evs)%nat.
Proof. unfold calls. simpl. by destruct (p e). Qed.

(** A trial calls the collaborators and nothing else. *)
Lemma calls_trial_events (p : event -> bool) network d sl' body st0 max_time oinf :
  (forall inf l s, p (ExposeRegions inf l s) = false) ->
  (forall n b s t, p (Simulation n b s t) = false) ->
  calls p (trial_events network d sl' body st0 max_time oinf)
  = if p (Deepcopy network d) then 1%nat else 0%nat.
Proof.
  intros Hp1 Hp2. unfold trial_events. rewrite calls_cons.
  destruct oinf as [inf|]; [|unfold calls; simpl; lia].
  rewrite calls_cons, Hp1.
  destruct (exposeRegions inf st0) as [st1 [e|]]; [unfold calls; simpl; lia|].
  rewrite calls_cons, Hp2. unfold calls. simpl. lia.
Qed.

Lemma log_lines_trial_events network d sl' body st0 max_time oinf :
  log_lines (trial_events network d sl' body st0 max_time oinf) = [].
Proof.
  unfold trial_events, log_lines. simpl. destruct oinf as [inf|]; [|done]. simpl.
  by destruct (exposeRegions inf st0) as [st1 [e|]].
Qed.

(** The trials that return a frame, at the head of a loop, step by step. *)
Lemma for_each_successes_steps network max_time trials infs body st0
    (is_ rest : list Z) (frames : list Frame.DataFrame) acc w :
  network_at (heap w) network body st0 ->
  Forall (fun i => 0 <= i) is_ ->
  Forall2 (fun i f => trial_outcome body st0 max_time (infs !! Z.to_nat i) = Returned f)
    is_ frames ->
  exists w1 evs,
    heap w ⊆ heap w1 /\ trace w1 = trace w ++ evs /\
    calls is_deepcopy evs = length frames /\
    calls is_simulation evs = length frames /\
    calls is_set_index evs = length frames /\
    calls is_iadd evs
    = match acc with None => Nat.pred (length frames) | Some _ => length frames end /\
    calls is_final evs = 0%nat /\
    log_lines evs = progress trials is_ /\
    for_each (is_ ++ rest) (trial_body network max_time trials infs) acc w
    = for_each rest (trial_body network max_time trials infs)
        (fold_left merge frames acc) w1.
Proof.
  intros Hnet Hpos Hok. revert acc w Hnet.
  induction Hok as [|i f is_ frames Hf Hok IH]; intros acc w Hnet.
  - exists w, []. rewrite app_nil_r. split_and!; try done. by destruct acc.
  - apply Forall_cons in Hpos as [Hi Hpos].
    destruct (trial_body_spec network max_time trials infs i acc body st0 w Hnet Hi)
      as (d & sl' & h' & Hsub & Hd & Hsl' & Hd' & Hbody).
    rewrite Hf in Hbody.
    destruct (events_of_returned network d sl' _ _ _ _ _ Hf) as (inf & Hinf & Hev).
    rewrite Hev in Hbody.
    match type of Hbody with _ = (_, ?w') => set (w2 := w') in * end.
    destruct (IH Hpos (merge acc f) w2)
      as (w1 & evs & Hsub1 & Htr & Hc1 & Hc2 & Hc3 & Hc4 & Hc5 & Hlog & Hloop).
    { eapply network_at_weaken; done. }
    eexists w1, _. split_and!.
    + etrans; done.
    + rewrite Htr. subst w2. simpl. rewrite <- app_assoc. reflexivity.
    + rewrite calls_app, Hc1. by destruct acc.
    + rewrite calls_app, Hc2. by destruct acc.
    + rewrite calls_app, Hc3. by destruct acc.
    + rewrite calls_app, Hc4. destruct acc; unfold calls; simpl; lia.
    + rewrite calls_app, Hc5. by destruct acc.
    + rewrite log_lines_app, Hlog. by destruct acc.
    + simpl. unfold mbind, M_bind, bind. rewrite Hbody. exact Hloop.
Qed.

(** The first trial that raises ends a run of more than one trial. *)
Lemma first_failure network max_time trials infs body st0 frames e w :
  1 < trials ->
  network_at (heap w) network body st0 ->
  Z.of_nat (length frames) < trials ->
  trial_results body st0 max_time infs (range (Z.of_nat (length frames))) frames ->
  trial_outcome body st0 max_time (infs !! length frames) = Raised e ->
  exists w' evs,
    runSimulation network max_time trials infs w = (Raised e, w') /\
    trace w' = trace w ++ evs /\
    heap w ⊆ heap w' /\
    calls is_deepcopy evs = S (length frames) /\
    (infs !! length frames = None -> calls is_simulation evs = length frames) /\
    calls is_set_index evs = length frames /\
    calls is_final evs = 0%nat /\
    log_lines evs = progress trials (range (Z.of_nat (S (length frames)))).
Proof.
  intros Ht Hnet Hshort Hres Hfail.
  rewrite runSimulation_multi by done.
  set (k := Z.of_nat (length frames)) in *.
  assert (range trials = range k ++ k :: seqZ (Z.succ k) (Z.pred (trials - k)))
    as Hrange.
  { unfold range. replace trials with (k + (trials - k)) at 1 by lia.
    rewrite seqZ_app by lia. f_equal. rewrite Z.add_0_l.
    apply seqZ_cons. lia. }
  destruct (for_each_successes_steps network max_time trials infs body st0
              (range k) (k :: seqZ (Z.succ k) (Z.pred (trials - k)))
              frames None w Hnet (range_nonneg _) Hres)
    as (w1 & evs & Hsub & Htr & Hc1 & Hc2 & Hc3 & _ & Hc5 & Hlog & Hloop).
  assert (network_at (heap w1) network body st0) as Hnet1
    by (eapply network_at_weaken; done).
  destruct (trial_body_spec network max_time trials infs k
              (fold_left merge frames None) body st0 w1 Hnet1)
    as (d & sl' & h' & Hsub' & _ & _ & _ & Hbody); [lia|].
  replace (Z.to_nat k) with (length frames) in Hbody by lia.
  rewrite Hfail in Hbody.
  unfold multi_trial_path. unfold mbind at 1. unfold M_bind, bind.
  rewrite Hrange, Hloop. simpl for_each. unfold mbind at 1.
  unfold M_bind, bind. rewrite Hbody.
  eexists _, _. split; [reflexivity|]. simpl.
  split; [rewrite Htr, <- app_assoc; reflexivity|].
  split; [by etrans|].
  rewrite !calls_app, log_lines_app, Hc1, Hc2, Hc3, Hc5, Hlog.
  rewrite !calls_cons, !(calls_trial_events is_deepcopy),
    !(calls_trial_events is_set_index), !(calls_trial_events is_final) by done.
  change (log_lines (LogInfo ?fmt ?args :: ?l)) with ((fmt, args) :: log_lines l).
  rewrite log_lines_trial_events. simpl.
  split_and!; [lia | | lia | done |].
  { intros ->. unfold calls. simpl. lia. }
  unfold progress, range. subst k. rewrite seqZ_S, map_app, Z.add_0_l. done.
Qed.


(** X1. In a run of more than one trial, the first trial that raises, be it
    for a missing InfectionSet, in the exposure or in the model, ends the
    run with its exception: the trials before it ran, no trial after it is
    started, and the averaging is not finished. *)
Theorem failing_trial_aborts network max_time trials infs body st0 frames e w :
  1 < trials ->
  network_at (heap w) network body st0 ->
  Z.of_nat (length frames) < trials ->
  trial_results body st0 max_time infs (range (Z.of_nat (length frames))) frames ->
  trial_outcome body st0 max_time (infs !! length frames) = Raised e ->
  exists w' evs,
    runSimulation network max_time trials infs w = (Raised e, w') /\
    trace w' = trace w ++ evs /\
    calls is_deepcopy evs = S (length frames) /\
    calls is_set_index evs = length frames /\
    calls is_final evs = 0%nat /\
    log_lines evs = progress trials (range (Z.of_nat (S (length frames)))).
Proof.
  intros Ht Hnet Hshort Hres Hfail.
  destruct (first_failure _ _ _ _ _ _ _ _ _ Ht Hnet Hshort Hres Hfail)
    as (w' & evs & Hrun & Htr & _ & Hc1 & _ & Hc2 & Hc3 & Hlog).
  by exists w', evs.
Qed.

(** X2. A run of more than one trial whose trials all return reports its
    progress once per trial, in order (1/n to n/n), re-keys every trial's
    rows, adds every trial but the first into the accumulator, and only then
    flattens the accumulator and divides it, once, as its last two steps. *)
Theorem averaging_steps network max_time trials infs body st0 frames w :
  1 < trials ->
  network_at (heap w) network body st0 ->
  trial_results body st0 max_time infs (range trials) frames ->
  exists averaged w' evs,
    runSimulation network max_time trials infs w = (Returned averaged, w') /\
    trace w' = trace w ++ evs ++ [ResetIndex; IdivTotal trials] /\
    log_lines evs = progress trials (range trials) /\
    calls is_set_index evs = Z.to_nat trials /\
    calls is_iadd evs = Nat.pred (Z.to_nat trials) /\
    calls is_final evs = 0%nat.
Proof.
  intros Ht Hnet Hres.
  pose proof (trial_results_length _ _ _ _ _ _ Hres) as Hlen.
  destruct (for_each_successes_steps network max_time trials infs body st0
              (range trials) [] frames None w Hnet (range_nonneg _) Hres)
    as (w1 & evs & Hsub & Htr & _ & _ & Hc3 & Hc4 & Hc5 & Hlog & Hloop).
  rewrite app_nil_r in Hloop.
  destruct frames as [|f0 rest]; [simpl in Hlen; lia|].
  rewrite runSimulation_multi by done.
  unfold multi_trial_path. unfold mbind at 1. unfold M_bind, bind.
  rewrite Hloop. simpl. rewrite fold_left_merge. unfold_M. simpl.
  eexists _, _, evs. split; [reflexivity|]. simpl.
  rewrite Htr, <- !app_assoc. simpl in *. split_and!; [done | done | lia | lia | done].
Qed.

End OrchestratorFacts.

(** ** Facts about the command line *)

Module CLIFacts.
Import CLI.

Section Invariant.

Variable int : string -> option Z.










(** *** What the parser returns and what it rejects *)














(** A word that does not start with a dash is no option for any parser. *)
Lemma classify_plain decls word :
  (forall rest, word <> String "-" rest) -> classify decls word = Value.
Proof.
  intros Hplain. unfold classify.
  destruct word as [|c rest]; [done|].
  destruct c as [[] [] [] [] [] [] [] []]; try done. by destruct (Hplain rest).
Qed.


(** X5. The counts that are declared with [type=int] are checked when the
    command line is read: [--time], [--trials] or [--infected] followed by a
    word that [int] does not accept ends the program with status 2, whatever
    follows. *)
Theorem non_integer_counts_are_rejected v words :
  (forall rest, v <> String "-" rest) ->
  int v = None ->
  build_args int ("--time" :: v :: words) = Exit 2 /\
  build_args int ("random" :: "--trials" :: v :: words) = Exit 2 /\
  build_args int ("random" :: "--infected" :: v :: words) = Exit 2 /\
  build_args int ("seeded" :: "--trials" :: v :: words) = Exit 2.
Proof.
  intros Hplain Hint.
  pose proof (classify_plain main_arguments v Hplain) as Hmain.
  pose proof (classify_plain random_arguments v Hplain) as Hrandom.
  pose proof (classify_plain seeded_arguments v Hplain) as Hseeded.
  split_and!.
  - unfold build_args. cbn [parse_words].
    change (classify main_arguments "--time")
      with (Option_ (Argument ["--time"] "time" (VInt 200) (Some TInt) Store One) None).
    cbn beta iota. cbn [act arity]. cbn beta iota. rewrite Hmain.
    unfold convert. cbn [type]. by rewrite Hint.
  - change (build_args int ("random" :: "--trials" :: v :: words))
      with (parse_command int random_arguments ("--trials" :: v :: words)
              (State (defaults random_arguments
                        (<["cmd" := VStr "random"]> (defaults main_arguments ∅))) false)).
    unfold parse_command. cbn [parse_words].
    change (classify random_arguments "--trials")
      with (Option_ (Argument ["--trials"] "trials" (VInt 100) (Some TInt) Store One) None).
    cbn beta iota. cbn [act arity]. cbn beta iota. rewrite Hrandom.
    unfold convert. cbn [type]. by rewrite Hint.
  - change (build_args int ("random" :: "--infected" :: v :: words))
      with (parse_command int random_arguments ("--infected" :: v :: words)
              (State (defaults random_arguments
                        (<["cmd" := VStr "random"]> (defaults main_arguments ∅))) false)).
    unfold parse_command. cbn [parse_words].
    change (classify random_arguments "--infected")
      with (Option_ (Argument ["--infected"] "infected" (VInt 100) (Some TInt) Store One) None).
    cbn beta iota. cbn [act arity]. cbn beta iota. rewrite Hrandom.
    unfold convert. cbn [type]. by rewrite Hint.
  - change (build_args int ("seeded" :: "--trials" :: v :: words))
      with (parse_command int seeded_arguments ("--trials" :: v :: words)
              (State (defaults seeded_arguments
                        (<["cmd" := VStr "seeded"]> (defaults main_arguments ∅))) false)).
    unfold parse_command. cbn [parse_words].
    change (classify seeded_arguments "--trials")
      with (Option_ (Argument ["--trials"] "trials" (VInt 1) (Some TInt) Store One) None).
    cbn beta iota. cbn [act arity]. cbn beta iota. rewrite Hseeded.
    unfold convert. cbn [type]. by rewrite Hint.
Qed.

End Invariant.
End CLIFacts.

(** ** The statements at work on the small model *)

Module Examples.
Import Scenario.

Local Abbreviation row := Frame.mkRow.

Lemma template_network sparse :
  network_at (heap (start sparse)) 1%positive sparse (1000%float, 0%float).
Proof. exists 2%positive. split; reflexivity. Qed.

Lemma frames3_results :
  trial_results exposeRegions basicSimulationInternalAgeStructure
    false (1000%float, 0%float) 0 [10; 20; 30]%float (range 3) frames3.
Proof. repeat constructor. Qed.

Lemma frames3_unique : Forall (fun f => NoDup (Frame.keys f)) frames3.
Proof.
  unfold frames3.
  repeat (apply Forall_cons_2; [by apply (bool_decide_unpack _); vm_compute|]).
  apply Forall_nil_2.
Qed.

Lemma frames3_same_key_space : Frame.same_key_space frames3.
Proof.
  intros f g Hf Hg k. unfold frames3 in *.
  repeat (apply elem_of_cons in Hf as [->|Hf]); [..|by apply elem_of_nil in Hf];
    repeat (apply elem_of_cons in Hg as [->|Hg]); try (by apply elem_of_nil in Hg);
    done.
Qed.


(** C7 on three trials of the small model. *)
Lemma key_space_stability_witness :
  exists averaged w',
    run false 0 3 [10; 20; 30]%float = (Returned averaged, w') /\
    Frame.keys averaged = Frame.keys (default [] (head frames3)) /\
    forall f k, f ∈ frames3 -> k ∈ Frame.keys averaged <-> k ∈ Frame.keys f.
Proof.
  apply (key_space_stability exposeRegions basicSimulationInternalAgeStructure
           1%positive 0 3 [10; 20; 30]%float false (1000%float, 0%float)
           frames3 (start false)).
  - lia.
  - apply template_network.
  - apply frames3_results.
  - apply frames3_unique.
  - apply frames3_same_key_space.
Defined.

(** C8 on the small model: the scenario itself. *)
Lemma concrete_scenario_witness :
  exists averaged w',
    run false 0 3 [10; 20; 30]%float = (Returned averaged, w') /\
    Frame.frame_get kI averaged = Some 20%float /\
    Frame.frame_get kS averaged = Some 980%float /\
    Frame.keys averaged ≡ₚ [kS; kI].
Proof.
  apply (concrete_scenario exposeRegions basicSimulationInternalAgeStructure
           1%positive [10; 20; 30]%float false (1000%float, 0%float)
           [row 0 "n" "a" "S" 990; row 0 "n" "a" "I" 10]%float
           [row 0 "n" "a" "S" 980; row 0 "n" "a" "I" 20]%float
           [row 0 "n" "a" "S" 970; row 0 "n" "a" "I" 30]%float
           "n" "a" (start false)).
  - apply template_network.
  - apply frames3_results.
  - repeat constructor.
  - repeat constructor.
  - repeat constructor.
Defined.

(** C2 on the small model. *)
Lemma single_trial_equivalence_witness :
  fst (multi_trial_path exposeRegions basicSimulationInternalAgeStructure
         1%positive 0 1 [10%float] (start false))
  = fst (single_trial_path exposeRegions basicSimulationInternalAgeStructure
           1%positive 0 [10%float] (start false)) /\
  heap (snd (multi_trial_path exposeRegions basicSimulationInternalAgeStructure
               1%positive 0 1 [10%float] (start false)))
  = heap (snd (single_trial_path exposeRegions basicSimulationInternalAgeStructure
                 1%positive 0 [10%float] (start false))).
Proof.
  apply (single_trial_equivalence exposeRegions basicSimulationInternalAgeStructure
           1%positive 0 [10%float] (start false)).
  intros f Hf. vm_compute in Hf. injection Hf as <-. repeat constructor.
Defined.



Lemma frames_mismatched_results :
  trial_results exposeRegions basicSimulationInternalAgeStructure
    true (1000%float, 0%float) 0 [0; 10]%float (range 2) frames_mismatched.
Proof. repeat constructor. Qed.

(** C4 as stated fails: the second trial has a key the first one lacks and
    the run returns an average that leaves this key out; with the trials the
    other way round the run returns NaN for the key the second trial
    lacks. It raises nothing in either case. *)
Lemma key_mismatch_counterexample :
  trial_frame exposeRegions basicSimulationInternalAgeStructure
    true (1000%float, 0%float) 0 0%float
  = Returned [row 0 "n" "a" "S" 1000%float] /\
  trial_frame exposeRegions basicSimulationInternalAgeStructure
    true (1000%float, 0%float) 0 10%float
  = Returned [row 0 "n" "a" "S" 990%float; row 0 "n" "a" "I" 10%float] /\
  fst (run true 0 2 [0; 10]%float) = Returned [row 0 "n" "a" "S" 995%float] /\
  fst (run true 0 2 [10; 0]%float)
  = Returned [row 0 "n" "a" "S" 995%float; row 0 "n" "a" "I" nan].
Proof. repeat split; vm_compute; reflexivity. Qed.

(** C4, as the code has it, on the two trials of the sparse model. *)
Lemma key_mismatch_is_aligned_witness :
  exists averaged w',
    run true 0 2 [0; 10]%float = (Returned averaged, w') /\
    Frame.keys averaged = Frame.keys [row 0 "n" "a" "S" 1000%float] /\
    (forall k, k ∉ Frame.keys [row 0 "n" "a" "S" 1000%float] ->
       Frame.frame_get k averaged = None) /\
    (forall k t0, Frame.frame_get k [row 0 "n" "a" "S" 1000%float] = Some t0 ->
       Frame.frame_get k averaged
       = Some (PrimFloat.div
                 (fold_left PrimFloat.add
                    (map (Frame.contribution k)
                       [[row 0 "n" "a" "S" 990%float; row 0 "n" "a" "I" 10%float]]) t0)
                 (Frame.float_of_int 2))).
Proof.
  apply (key_mismatch_is_aligned exposeRegions basicSimulationInternalAgeStructure
           1%positive 0 2 [0; 10]%float true (1000%float, 0%float)
           [row 0 "n" "a" "S" 1000%float]
           [[row 0 "n" "a" "S" 990%float; row 0 "n" "a" "I" 10%float]]
           (start true)).
  - lia.
  - apply template_network.
  - apply frames_mismatched_results.
  - repeat (apply Forall_cons_2; [by apply (bool_decide_unpack _); vm_compute|]).
    apply Forall_nil_2.
Defined.

(** C5 on the small model. *)
Lemma single_trial_path_algorithm_witness :
  exists d sl' w',
    run false 0 1 [10; 20]%float
    = (snd (basicSimulationInternalAgeStructure false (990%float, 10%float) 0), w') /\
    trace w' = trace (start false) ++
      [LogInfo "Running simulation (1/1)" []; Deepcopy 1%positive d;
       ExposeRegions 10%float sl' (1000%float, 0%float);
       Simulation d false (990%float, 10%float) 0] /\
    (d ∉ dom (heap (start false))) /\ (sl' ∉ dom (heap (start false))) /\
    (exists b, heap w' !! d = Some (ONetwork b sl')) /\
    calls is_averaging (trace w') = calls is_averaging (trace (start false)).
Proof.
  apply (single_trial_path_algorithm exposeRegions basicSimulationInternalAgeStructure
           1%positive 0 1 10%float [20%float] false (1000%float, 0%float)
           (990%float, 10%float) (start false)).
  - lia.
  - apply template_network.
  - reflexivity.
Defined.

(** C9 on the small model. *)
Lemma single_trial_reads_first_only_witness :
  (forall inf rest rest',
     run false 0 1 (inf :: rest) = run false 0 1 (inf :: rest')) /\
  (exists d w',
     run false 0 1 [] = (Raised IndexError, w') /\
     trace w' = trace (start false) ++
       [LogInfo "Running simulation (1/1)" []; Deepcopy 1%positive d]).
Proof.
  apply (single_trial_reads_first_only exposeRegions basicSimulationInternalAgeStructure
           1%positive 0 1 false (1000%float, 0%float) (start false)).
  - lia.
  - apply template_network.
Defined.

(** C6 on three trials of the small model. *)
Lemma trial_isolation_witness :
  heap (start false) ⊆ heap (snd (run false 0 3 [10; 20; 30]%float)) /\
  network_at (heap (snd (run false 0 3 [10; 20; 30]%float)))
    1%positive false (1000%float, 0%float) /\
  exists evs,
    trace (snd (run false 0 3 [10; 20; 30]%float)) = trace (start false) ++ evs /\
    Forall (isolated exposeRegions (heap (start false)) false (1000%float, 0%float)) evs /\
    NoDup (clones evs) /\
    exposures evs `prefix_of` [10; 20; 30]%float.
Proof.
  apply (trial_isolation exposeRegions basicSimulationInternalAgeStructure
           1%positive 0 3 [10; 20; 30]%float false (1000%float, 0%float)
           (start false) (fst (run false 0 3 [10; 20; 30]%float))).
  - apply template_network.
  - apply surjective_pairing.
Defined.


End Examples.

(** ** Facts about the logging configuration *)

Module LoggerFacts.
Import Logger.

Section SetupLogger.

Context {Path FS : Type} `{EqDecision Path}.
Variable parent : Path -> option Path.
Variable cwd : option Path.
Variable mkdir : Path -> FS -> option FS.
Variable str : Path -> string.
Variable package : string.

Local Abbreviation setup_logger := (setup_logger parent cwd mkdir str package).

(** X6. The levels setup_logger configures. With [quiet], stderr reports
    warnings and the log file, if any, stays at INFO, whatever [debug] is;
    with [debug] alone stderr and the log file report debug messages;
    otherwise, also when setup_logger is called without arguments, both are
    at INFO. *)
Theorem setup_logger_levels args fs conf fs' errs :
  setup_logger args fs = (Configured conf, fs', errs) ->
  let q := from_option quiet false args in
  let d := from_option debug false args in
  handler_level "stderr" conf
  = Some (if q then WARNING else if d then DEBUG else INFO) /\
  handler_level "logfile" conf
  = match args with
    | Some (LoggerArgs (Some _) _ _) => Some (if negb q && d then DEBUG else INFO)
    | _ => None
    end.
Proof.
  unfold Logger.setup_logger. intros Hrun.
  destruct args as [[[file|] q d]|]; simpl in *.
  - destruct (parent file) as [logdir|]; [|done].
    destruct (c ← cwd; if decide (logdir = c) then Some fs else mkdir logdir fs);
      [|done].
    injection Hrun as <- <- <-. by destruct q, d.
  - injection Hrun as <- <- <-. by destruct q, d.
  - injection Hrun as <- <- <-. done.
Qed.

(** X7. setup_logger asks the process to exit in one case only: a log file
    is requested, its directory is not the working directory, or the working
    directory cannot be told, and the directory cannot be created. The
    status is then 1, the error is logged once, with the directory, the file
    system is as it was and no configuration is installed. *)
Theorem setup_logger_exit args fs code fs' errs :
  setup_logger args fs = (SystemExit code, fs', errs) <->
  code = 1 /\ fs' = fs /\
  exists q d file logdir,
    args = Some (LoggerArgs (Some file) q d) /\
    parent file = Some logdir /\
    errs = [("Could not create %s for logging", logdir)] /\
    (cwd = None \/ exists c, cwd = Some c /\ logdir <> c /\ mkdir logdir fs = None).
Proof.
  unfold Logger.setup_logger. split.
  - intros Hrun. destruct args as [[[file|] q d]|]; simpl in *; [|done..].
    destruct (parent file) as [logdir|] eqn:Hparent; [|done].
    destruct cwd as [c|] eqn:Hcwd; simpl in *.
    + destruct (decide (logdir = c)) as [->|Hne]; [done|].
      destruct (mkdir logdir fs) eqn:Hmk; [done|].
      injection Hrun as <- <- <-. split_and!; [done..|].
      exists q, d, file, logdir. split_and!; [done..|]. right. eauto.
    + injection Hrun as <- <- <-. split_and!; [done..|].
      exists q, d, file, logdir. split_and!; [done..|]. by left.
  - intros (-> & -> & q & d & file & logdir & -> & Hparent & -> & Hdir).
    simpl. rewrite Hparent.
    destruct Hdir as [->|(c & -> & Hne & Hmk)]; simpl; [done|].
    destruct (decide (logdir = c)); [done|]. by rewrite Hmk.
Qed.

(** X8. A configuration setup_logger installs is consistent: every handler
    the package logger names is defined. It has a file handler exactly when
    a log file was requested, and the handler then writes to that file.
    Without a log file the file system is not touched and the call always
    installs a configuration. *)
Theorem setup_logger_consistent args fs :
  (forall conf fs' errs,
     setup_logger args fs = (Configured conf, fs', errs) ->
     errs = [] /\
     Forall (fun h => has_handler h (handlers conf) = true) (named_handlers conf) /\
     match args with
     | Some (LoggerArgs (Some file) _ _) =>
         exists l, List.find (fun p => bool_decide (fst p = "logfile")) (handlers conf)
                   = Some ("logfile",
                           Handler "logging.FileHandler" l "standard" (str file)
                             (Some "utf8"))
     | _ => has_handler "logfile" (handlers conf) = false
     end) /\
  (from_option logfile None args = None ->
   exists conf, setup_logger args fs = (Configured conf, fs, [])).
Proof.
  unfold Logger.setup_logger. split.
  - intros conf fs' errs Hrun.
    destruct args as [[[file|] q d]|]; simpl in *.
    + destruct (parent file) as [logdir|]; [|done].
      destruct (c ← cwd; if decide (logdir = c) then Some fs else mkdir logdir fs);
        [|done].
      injection Hrun as <- <- <-. split; [done|].
      unfold named_handlers, add_logfile, initial_logconf.
      destruct q, d; simpl; rewrite decide_True by done; simpl;
        (split; [by repeat constructor | eauto]).
    + injection Hrun as <- <- <-. split; [done|].
      destruct q, d; simpl; (split; [by repeat constructor | done]).
    + injection Hrun as <- <- <-. split; [done|].
      simpl. split; [by repeat constructor | done].
  - intros Hnone. destruct args as [[[file|] q d]|]; simpl in *; [done|eauto..].
Qed.

End SetupLogger.
End LoggerFacts.

(** ** Facts about the program *)

Module MainFacts.
Import CLI Main.

Section Main.

Context {Structure State InfectionSet Table G Path FS : Type} `{EqDecision Path}.
Variable exposeRegions : InfectionSet -> State -> State * option exn.
Variable basicSimulationInternalAgeStructure :
  Structure -> State -> Z -> (Structure * State) * outcome Frame.DataFrame.
Variable int : string -> option Z.
Variable Path_ : string -> Path.
Variable parent : Path -> option Path.
Variable cwd : option Path.
Variable mkdir : Path -> FS -> option FS.
Variable str : Path -> string.
Variable package : string.
Variable Datastore : value -> option exn.
Variable tables : string -> outcome Table.
Variable write_table : string -> Frame.DataFrame -> option exn.
Variable createNetworkOfPopulation :
  list Table -> option Table -> outcome (Structure * State).
Variable readInitialInfections : Table -> outcome InfectionSet.
Variable randomlyInfectRegions :
  G -> Structure -> State -> value -> value -> value -> outcome InfectionSet * G.

Local Abbreviation session := (@session Structure State InfectionSet G Path FS).
Local Abbreviation runSimulation :=
  (runSimulation exposeRegions basicSimulationInternalAgeStructure).
Local Abbreviation trial_frame :=
  (trial_frame exposeRegions basicSimulationInternalAgeStructure).
Local Abbreviation read_table := (read_table tables).
Local Abbreviation load_network := (load_network tables createNetworkOfPopulation).
Local Abbreviation draw := (draw randomlyInfectRegions).
Local Abbreviation seed := (seed tables readInitialInfections randomlyInfectRegions).
Local Abbreviation simulate_and_write :=
  (simulate_and_write exposeRegions basicSimulationInternalAgeStructure write_table).
Local Abbreviation main_body :=
  (main_body exposeRegions basicSimulationInternalAgeStructure tables write_table
     createNetworkOfPopulation readInitialInfections randomlyInfectRegions).
Local Abbreviation main :=
  (main exposeRegions basicSimulationInternalAgeStructure int Path_ parent cwd mkdir
     str package Datastore tables write_table createNetworkOfPopulation
     readInitialInfections randomlyInfectRegions).

#[local] Existing Instances M_ret M_bind B_ret B_bind.

Implicit Types (s : session) (a : arguments) (network : loc).

Ltac unfold_B :=
  unfold mbind, mret, B_bind, B_ret, call, lift, Main.read_table,
    store_write_table.

Tactic Notation "unfold_B" "in" hyp(H) :=
  unfold mbind, mret, B_bind, B_ret, call, lift, Main.read_table,
    store_write_table in H.

Ltac simpl_eqs :=
  repeat match goal with H : _ = _ |- _ => progress simpl in H end; simpl.

Lemma writes_app (l l' : list access) : writes (l ++ l') = writes l ++ writes l'.
Proof using Type. apply omap_app. Qed.

Lemma reads_app (l l' : list access) : reads (l ++ l') = reads l ++ reads l'.
Proof using Type. apply omap_app. Qed.

(** load_network when the store has the tables and the network can be built. *)
Lemma load_network_returns a s ts content :
  Forall2 (fun name t => tables name = Returned t) (table_names a) ts ->
  createNetworkOfPopulation (take 6 ts) (ts !! 6%nat) = Returned content ->
  exists network s',
    load_network a s = (Returned network, s') /\
    accesses s' = accesses s ++ (Read <$> table_names a) /\
    network_at (heap (objects s')) network (fst content) (snd content) /\
    heap (objects s) ⊆ heap (objects s') /\
    (network ∉ dom (heap (objects s))) /\
    trace (objects s') = trace (objects s) /\
    rng s' = rng s.
Proof using Type.
  intros Hts Hbuild. unfold table_names in Hts.
  apply Forall2_app_inv_l in Hts as (ts6 & ts7 & Hts6 & Hts7 & ->).
  repeat (apply Forall2_cons_inv_l in Hts6 as (? & ? & ? & Hts6 & ->)).
  apply Forall2_nil_inv_l in Hts6 as ->.
  unfold Main.load_network. unfold_B. simpl.
  repeat match goal with H : tables _ = Returned _ |- _ => rewrite H; clear H end.
  simpl in Hbuild.
  set (sl := fresh (dom (heap (objects s)))).
  destruct (use_movement_multipliers a).
  - apply Forall2_cons_inv_l in Hts7 as (t7 & ? & Ht7 & Hnil & ->).
    apply Forall2_nil_inv_l in Hnil as ->. simpl in Hbuild.
    rewrite Ht7. simpl. rewrite Hbuild. unfold new_network. simpl.
    fold sl. set (l := fresh (dom (<[sl := OState (snd content)]> (heap (objects s))))).
    assert (sl ∉ dom (heap (objects s))) as Hsl by apply is_fresh.
    assert (l ∉ dom (<[sl := OState (snd content)]> (heap (objects s)))) as Hl
      by apply is_fresh.
    rewrite dom_insert_L in Hl.
    eexists _, _. split; [reflexivity|]. simpl. split_and!.
    + by rewrite <- !app_assoc.
    + exists sl. split; [apply lookup_insert_eq|].
      rewrite lookup_insert_ne by (clear -Hl; set_solver). apply lookup_insert_eq.
    + apply map_subseteq_spec. intros k o Hk.
      assert (k ∈ dom (heap (objects s))) as Hdom by (apply elem_of_dom; eauto).
      rewrite !lookup_insert_ne by (clear -Hdom Hsl Hl; set_solver). done.
    + clear -Hl. set_solver.
    + done.
    + done.
  - apply Forall2_nil_inv_l in Hts7 as ->. simpl in Hbuild.
    rewrite Hbuild. unfold new_network. simpl.
    fold sl. set (l := fresh (dom (<[sl := OState (snd content)]> (heap (objects s))))).
    assert (sl ∉ dom (heap (objects s))) as Hsl by apply is_fresh.
    assert (l ∉ dom (<[sl := OState (snd content)]> (heap (objects s)))) as Hl
      by apply is_fresh.
    rewrite dom_insert_L in Hl.
    eexists _, _. split; [reflexivity|]. simpl. split_and!.
    + by rewrite <- !app_assoc.
    + exists sl. split; [apply lookup_insert_eq|].
      rewrite lookup_insert_ne by (clear -Hl; set_solver). apply lookup_insert_eq.
    + apply map_subseteq_spec. intros k o Hk.
      assert (k ∈ dom (heap (objects s))) as Hdom by (apply elem_of_dom; eauto).
      rewrite !lookup_insert_ne by (clear -Hdom Hsl Hl; set_solver). done.
    + clear -Hl. set_solver.
    + done.
    + done.
Qed.

(** X9. load_network reads the six tables of the network, in the order of
    the source, and after them the movement multipliers exactly when the
    flag is set. When the store has them all and the network can be built,
    the network it returns is a new object that holds what
    createNetworkOfPopulation built; the objects that existed stay as they
    were, nothing is written, logged or drawn. *)
Theorem load_network_reads a s ts content :
  Forall2 (fun name t => tables name = Returned t) (table_names a) ts ->
  createNetworkOfPopulation (take 6 ts) (ts !! 6%nat) = Returned content ->
  exists network s',
    load_network a s = (Returned network, s') /\
    accesses s' = accesses s ++ (Read <$> table_names a) /\
    network_at (heap (objects s')) network (fst content) (snd content) /\
    heap (objects s) ⊆ heap (objects s') /\
    (network ∉ dom (heap (objects s))) /\
    trace (objects s') = trace (objects s) /\
    rng s' = rng s.
Proof using Type. apply load_network_returns. Qed.




(** What the work on the store leaves alone: the file system, the logging
    configuration and the errors logged by setup_logger. *)
Definition env s : FS * option Logger.logconf * list (string * Path) :=
  (files s, logging s, errors s).


(** The draws of the [random] command: they leave everything but the
    random generator as it is, and add one InfectionSet each. *)
Lemma draw_shape a network s r s' :
  draw a network s = (r, s') ->
  objects s' = objects s /\ accesses s' = accesses s /\ env s' = env s.
Proof using Type.
  unfold Main.draw. intros Hrun.
  repeat (case_match; simplify_eq; simpl_eqs); done.
Qed.

Lemma draws_shape a network (l : list Z) acc s r s' :
  B_for_each l
    (fun _ initialInfections =>
       infections ← draw a network; mret (initialInfections ++ [infections]))
    acc s = (r, s') ->
  objects s' = objects s /\ accesses s' = accesses s /\ env s' = env s /\
  forall infs, r = Returned infs -> length infs = (length acc + length l)%nat.
Proof using Type.
  unfold mbind, mret, B_bind, B_ret.
  revert acc s. induction l as [|i l IH]; intros acc s Hrun; simpl in Hrun.
  - unfold mret, B_ret in Hrun. injection Hrun as <- <-. split_and!; [done..|].
    intros infs [= <-]. simpl. lia.
  - unfold mbind, B_bind in Hrun.
    destruct (draw a network s) as [[inf|e] s1] eqn:Hdraw.
    + apply draw_shape in Hdraw as (Hobj & Hacc & Henv).
      apply IH in Hrun as (Hobj' & Hacc' & Henv' & Hlen).
      split_and!; [congruence | congruence | congruence |].
      intros infs Hinfs. rewrite (Hlen _ Hinfs), length_app. simpl. lia.
    + apply draw_shape in Hdraw as (Hobj & Hacc & Henv).
      injection Hrun as <- <-. by split_and!.
Qed.

Lemma draws_return a network body st0 (l : list Z) acc s :
  network_at (heap (objects s)) network body st0 ->
  (forall g, exists inf g',
     randomlyInfectRegions g body st0 (regions a) (age_groups a) (infected a)
     = (Returned inf, g')) ->
  exists infs s',
    B_for_each l
      (fun _ initialInfections =>
         infections ← draw a network; mret (initialInfections ++ [infections]))
      acc s = (Returned infs, s').
Proof using Type.
  unfold mbind, mret, B_bind, B_ret.
  intros Hnet Hdraw. revert acc s Hnet.
  induction l as [|i l IH]; intros acc s (sl & Hn & Hs); simpl.
  - unfold mret, B_ret. eauto.
  - unfold mbind, B_bind. unfold Main.draw at 1.
    rewrite Hn, Hs. destruct (Hdraw (rng s)) as (inf & g' & ->).
    apply IH. by exists sl.
Qed.

(** X10. When seed returns, it returns one InfectionSet per requested trial
    for the [random] command (none for a count of zero or less) and exactly
    one for the [seeded] command, whatever the trial count. The [random]
    command does not touch the store; the [seeded] command reads the initial
    infections, once, and draws nothing. Neither touches a Python object or
    writes a table. The [random] command returns whenever every draw does. *)
Theorem seed_one_per_trial a network s :
  (forall infs s',
     seed a network s = (Returned infs, s') ->
     objects s' = objects s /\
     match cmd a with
     | Random => length infs = Z.to_nat (trials a) /\ accesses s' = accesses s
     | Seeded =>
         length infs = 1%nat /\ rng s' = rng s /\
         accesses s' = accesses s ++ [Read "human/initial-infections"]
     end) /\
  (cmd a = Random ->
   forall body st0,
     network_at (heap (objects s)) network body st0 ->
     (forall g, exists inf g',
        randomlyInfectRegions g body st0 (regions a) (age_groups a) (infected a)
        = (Returned inf, g')) ->
     exists infs s', seed a network s = (Returned infs, s')).
Proof using Type.
  unfold Main.seed. split.
  - intros infs s' Hrun. destruct (cmd a).
    + apply draws_shape in Hrun as (Hobj & Hacc & _ & Hlen).
      split_and!; [done | | done]. rewrite (Hlen _ eq_refl). simpl.
      unfold range. by rewrite length_seqZ.
    + unfold_B in Hrun. simpl in Hrun.
      destruct (tables "human/initial-infections") as [t|e]; [|done].
      destruct (readInitialInfections t) as [inf|e]; [|done].
      injection Hrun as <- <-. by split_and!.
  - intros -> body st0 Hnet Hdraw. by eapply draws_return.
Qed.



Lemma writes_Read (l : list string) : writes (Read <$> l) = [].
Proof using Type. induction l; [done|]. simpl. done. Qed.

Lemma reads_Read (l : list string) : reads (Read <$> l) = l.
Proof using Type. induction l as [|n l IH]; [done|]. simpl. cbn. by f_equal. Qed.


(** X11. The [seeded] command with two trials or more: main reads the
    tables, builds the network, reads the one set of initial infections,
    runs the first trial in full, clones the network for the second, and
    ends with IndexError; no table is written. *)
Theorem seeded_with_several_trials_fails a s ts content t inf f :
  Forall2 (fun name t => tables name = Returned t) (table_names a) ts ->
  createNetworkOfPopulation (take 6 ts) (ts !! 6%nat) = Returned content ->
  cmd a = Seeded ->
  2 <= trials a ->
  tables "human/initial-infections" = Returned t ->
  readInitialInfections t = Returned inf ->
  trial_frame (fst content) (snd content) (time a) inf = Returned f ->
  exists s' evs,
    main_body a s = (Raised IndexError, s') /\
    writes (accesses s') = writes (accesses s) /\
    reads (accesses s')
    = reads (accesses s) ++ table_names a ++ ["human/initial-infections"] /\
    trace (objects s') = trace (objects s) ++ evs /\
    calls is_deepcopy evs = 2%nat /\
    calls is_simulation evs = 1%nat /\
    calls is_final evs = 0%nat.
Proof using Type.
  intros Hts Hbuild Hcmd Htrials Ht Hinf Hf.
  destruct (load_network_returns a s ts content Hts Hbuild)
    as (network & s1 & Hload & Hacc1 & Hnet & _ & _ & Htr1 & _).
  unfold Main.main_body. unfold mbind at 1. unfold B_bind. rewrite Hload.
  unfold mbind at 1. unfold B_bind. unfold Main.seed. rewrite Hcmd.
  unfold_B. simpl. rewrite Ht. simpl. rewrite Hinf. simpl.
  destruct (first_failure exposeRegions basicSimulationInternalAgeStructure
              network (time a) (trials a) [inf] (fst content) (snd content) [f]
              IndexError (objects s1))
    as (w' & evs & Hrun & Htr & _ & Hc1 & Hc2 & _ & Hc3 & _);
    [lia | done | simpl; lia | by repeat constructor | done |].
  unfold Main.simulate_and_write. unfold_B. simpl.
  rewrite Hrun. eexists _, evs. split; [reflexivity|]. simpl.
  rewrite Hacc1, Htr, Htr1, !writes_app, !reads_app, writes_Read, reads_Read.
  simpl. rewrite !app_nil_r, <- app_assoc.
  split_and!; [done | done | done | done | by apply Hc2 | done].
Qed.


(** X12. The [random] command with a trial count of zero or less: main
    builds the network and draws nothing, and runSimulation, given no
    InfectionSet, clones the network and ends with IndexError; the model is
    not called and no table is written. *)
Theorem random_without_trials_fails a s ts content :
  Forall2 (fun name t => tables name = Returned t) (table_names a) ts ->
  createNetworkOfPopulation (take 6 ts) (ts !! 6%nat) = Returned content ->
  cmd a = Random ->
  trials a <= 0 ->
  exists s' evs,
    main_body a s = (Raised IndexError, s') /\
    accesses s' = accesses s ++ (Read <$> table_names a) /\
    rng s' = rng s /\
    trace (objects s') = trace (objects s) ++ evs /\
    calls is_deepcopy evs = 1%nat /\
    calls is_exposure evs = 0%nat /\
    calls is_simulation evs = 0%nat.
Proof using Type.
  intros Hts Hbuild Hcmd Htrials.
  destruct (load_network_returns a s ts content Hts Hbuild)
    as (network & s1 & Hload & Hacc1 & Hnet & _ & _ & Htr1 & Hrng).
  unfold Main.main_body. unfold mbind at 1. unfold B_bind. rewrite Hload.
  unfold mbind at 1. unfold B_bind. unfold Main.seed. rewrite Hcmd.
  unfold range. rewrite seqZ_nil by done. simpl. unfold_B.
  destruct (single_trial_path_spec exposeRegions basicSimulationInternalAgeStructure
              network (time a) [] (fst content) (snd content) (objects s1) Hnet)
    as (d & sl' & h' & _ & _ & _ & _ & Hrun).
  unfold Main.simulate_and_write. unfold_B. simpl.
  rewrite (runSimulation_single exposeRegions basicSimulationInternalAgeStructure)
    by lia.
  rewrite Hrun. simpl. eexists _, _. split; [reflexivity|]. simpl.
  rewrite Htr1. by split_and!.
Qed.




End Main.
End MainFacts.

(** * The extra results on the small program *)

Module ProgramExamples.
Import Scenario.

Local Abbreviation row := Frame.mkRow.

(** X1: three trials requested, two InfectionSets given. *)
Lemma failing_trial_aborts_witness :
  exists w' evs,
    run false 0 3 [10; 20]%float = (Raised IndexError, w') /\
    trace w' = trace (start false) ++ evs /\
    calls is_deepcopy evs = 3%nat /\
    calls is_set_index evs = 2%nat /\
    calls is_final evs = 0%nat /\
    log_lines evs = progress 3 (range 3).
Proof.
  apply (failing_trial_aborts exposeRegions basicSimulationInternalAgeStructure
           1%positive 0 3 [10; 20]%float false (1000%float, 0%float)
           [[row 0 "n" "a" "S" 990; row 0 "n" "a" "I" 10];
            [row 0 "n" "a" "S" 980; row 0 "n" "a" "I" 20]]%float
           IndexError (start false)).
  - lia.
  - apply Examples.template_network.
  - simpl. lia.
  - repeat constructor.
  - reflexivity.
Defined.

(** X2: three trials of the small model. *)
Lemma averaging_steps_witness :
  exists averaged w' evs,
    run false 0 3 [10; 20; 30]%float = (Returned averaged, w') /\
    trace w' = trace (start false) ++ evs ++ [ResetIndex; IdivTotal 3] /\
    log_lines evs = progress 3 (range 3) /\
    calls is_set_index evs = 3%nat /\
    calls is_iadd evs = 2%nat /\
    calls is_final evs = 0%nat.
Proof.
  apply (averaging_steps exposeRegions basicSimulationInternalAgeStructure
           1%positive 0 3 [10; 20; 30]%float false (1000%float, 0%float)
           frames3 (start false)).
  - lia.
  - apply Examples.template_network.
  - apply Examples.frames3_results.
Defined.


(** X5: a count that is no number. *)
Lemma non_integer_counts_are_rejected_witness :
  CLI.build_args CLI.decimal ["--time"; "soon"; "random"] = CLI.Exit 2 /\
  CLI.build_args CLI.decimal ["random"; "--trials"; "soon"; "random"] = CLI.Exit 2 /\
  CLI.build_args CLI.decimal ["random"; "--infected"; "soon"; "random"] = CLI.Exit 2 /\
  CLI.build_args CLI.decimal ["seeded"; "--trials"; "soon"; "random"] = CLI.Exit 2.
Proof.
  apply (CLIFacts.non_integer_counts_are_rejected CLI.decimal "soon" ["random"]).
  - intros rest Hrest. discriminate Hrest.
  - reflexivity.
Defined.

(** X6: a log file with [debug]. *)
Lemma setup_logger_levels_witness :
  exists conf fs' errs,
    Logger.setup_logger Program.parent Program.cwd Program.mkdir id "simple_network_sim"
      (Some (Logger.LoggerArgs (Some "logs/run.log") false true)) []
    = (Logger.Configured conf, fs', errs) /\
    Logger.handler_level "stderr" conf = Some Logger.DEBUG /\
    Logger.handler_level "logfile" conf = Some Logger.DEBUG.
Proof.
  eexists _, _, _. split; [reflexivity|].
  eapply (LoggerFacts.setup_logger_levels Program.parent Program.cwd Program.mkdir id
           "simple_network_sim"
           (Some (Logger.LoggerArgs (Some "logs/run.log") false true)) []).
  reflexivity.
Defined.

(** X9: the network of the small program, without movement multipliers. *)
Lemma load_network_reads_witness :
  exists network s',
    Main.load_network Program.tables Program.createNetworkOfPopulation
      (Program.seeded 3) Program.start
    = (Returned network, s') /\
    Main.accesses s'
    = Main.accesses Program.start ++ (Main.Read <$> Main.table_names (Program.seeded 3)) /\
    network_at (heap (Main.objects s')) network false (1000%float, 0%float) /\
    heap (Main.objects Program.start) ⊆ heap (Main.objects s') /\
    (network ∉ dom (heap (Main.objects Program.start))) /\
    trace (Main.objects s') = trace (Main.objects Program.start) /\
    Main.rng s' = Main.rng Program.start.
Proof.
  apply (MainFacts.load_network_reads Program.tables Program.createNetworkOfPopulation
           (Program.seeded 3) Program.start (replicate 6 tt)
           (false, (1000%float, 0%float))).
  - repeat constructor.
  - reflexivity.
Defined.

(** X11: the [seeded] command with three trials. *)
Lemma seeded_with_several_trials_fails_witness :
  exists s' evs,
    Program.main_body (Program.seeded 3) = (Raised IndexError, s') /\
    Main.writes (Main.accesses s') = Main.writes (Main.accesses Program.start) /\
    Main.reads (Main.accesses s')
    = Main.reads (Main.accesses Program.start)
      ++ Main.table_names (Program.seeded 3) ++ ["human/initial-infections"] /\
    trace (Main.objects s') = trace (Main.objects Program.start) ++ evs /\
    calls is_deepcopy evs = 2%nat /\
    calls is_simulation evs = 1%nat /\
    calls is_final evs = 0%nat.
Proof.
  apply (MainFacts.seeded_with_several_trials_fails
           exposeRegions basicSimulationInternalAgeStructure
           Program.tables Program.write_table Program.createNetworkOfPopulation
           Program.readInitialInfections Program.randomlyInfectRegions
           (Program.seeded 3) Program.start (replicate 6 tt)
           (false, (1000%float, 0%float)) tt 10%float
           [row 0 "n" "a" "S" 990; row 0 "n" "a" "I" 10]%float).
  - repeat constructor.
  - reflexivity.
  - reflexivity.
  - simpl. lia.
  - reflexivity.
  - reflexivity.
  - reflexivity.
Defined.

(** X12: the [random] command with no trial. *)
Lemma random_without_trials_fails_witness :
  exists s' evs,
    Program.main_body (Program.random 0) = (Raised IndexError, s') /\
    Main.accesses s'
    = Main.accesses Program.start ++ (Main.Read <$> Main.table_names (Program.random 0)) /\
    Main.rng s' = Main.rng Program.start /\
    trace (Main.objects s') = trace (Main.objects Program.start) ++ evs /\
    calls is_deepcopy evs = 1%nat /\
    calls is_exposure evs = 0%nat /\
    calls is_simulation evs = 0%nat.
Proof.
  apply (MainFacts.random_without_trials_fails
           exposeRegions basicSimulationInternalAgeStructure
           Program.tables Program.write_table Program.createNetworkOfPopulation
           Program.readInitialInfections Program.randomlyInfectRegions
           (Program.random 0) Program.start (replicate 7 tt)
           (false, (1000%float, 0%float))).
  - repeat constructor.
  - reflexivity.
  - reflexivity.
  - simpl. lia.
Defined.



End ProgramExamples.
